(** * vast-pyworker: payload validation, endpoint handlers and the legacy
      TGI proxy, embedded from the Python sources.

    Layout of the development:
    - [json], [exn]: JSON values and the Python exceptions the code raises;
    - [ApiPayload]: the classmethod [from_json_msg], generic in the class;
    - [whisper]: workers/whisper/data_types.py and workers/whisper/server.py;
    - [tgi], [hello_world]: workers/tgi/server.py, workers/hello_world/server.py;
    - [tgi_backend]: tgi_backend.py (the synchronous Flask proxy);
    - [lib_backend]: the parts of lib/backend.py that are not among the
      sources, modelled from the specification;
    - the theorems, one group per claim.

    [print] and [log.debug] calls are left out of the embedding. *)

From Stdlib Require Import ZArith.
From stdpp Require Import base gmap strings list fin_maps.

Set Warnings "-register-all".
Local Open Scope Z_scope.

(** ** JSON values

    [request.json()] and [response.json()] return Python values built from
    [None], [bool], numbers, [str], [list] and [dict]; a [dict] with string
    keys is a [gmap string json]. *)
Inductive json : Type :=
  | JNull
  | JBool (b : bool)
  | JNum (z : Z)
  | JStr (s : string)
  | JArr (l : list json)
  | JObj (o : gmap string json).

(** ** Exceptions

    [JsonDataException] carries the field -> reason dict ([e.message]).
    [CancelledError] derives from [BaseException] only, so that
    [except Exception] does not catch it. *)
Inductive exn : Type :=
  | JsonDataException (message : gmap string json)
  | TypeError (msg : string)
  | RequestException (msg : string)
  | KeyError (key : string)
  | Exception (msg : string)
  | CancelledError.

(** [isinstance(e, Exception)] *)
Definition is_Exception (e : exn) : bool :=
  match e with
  | CancelledError => false
  | _ => true
  end.

(** The double-quote character, for the log markers that contain it. *)
Definition dq : string := String (Ascii.ascii_of_nat 34) EmptyString.

(** The newline character, [chr(10)]. *)
Definition nl : string := String (Ascii.ascii_of_nat 10) EmptyString.

(** The result of a call that may raise. *)
Inductive result (A : Type) : Type :=
  | Return (a : A)
  | Raise (e : exn).
Arguments Return {A} a.
Arguments Raise {A} e.

(** ** Handlers as state-passing computations

    An [async def] handler runs against the one global [backend] object; its
    state is threaded explicitly and an exception ends the computation. *)
Section monad.
Context {State : Type}.

Definition M (A : Type) : Type := State → result A * State.

Definition ret {A} (a : A) : M A := λ s, (Return a, s).

Definition raise {A} (e : exn) : M A := λ s, (Raise e, s).

Definition bind {A B} (m : M A) (k : A → M B) : M B :=
  λ s, match m s with
       | (Return a, s') => k a s'
       | (Raise e, s') => (Raise e, s')
       end.

(** [result] values (calls that touch no state) used as computations *)
Definition lift {A} (r : result A) : M A := λ s, (r, s).

(** [try: m  except Exception as e: h e] *)
Definition try_except_Exception {A} (m : M A) (h : exn → M A) : M A :=
  λ s, match m s with
       | (Return a, s') => (Return a, s')
       | (Raise e, s') => if is_Exception e then h e s' else (Raise e, s')
       end.
End monad.

Notation "'let*' x ':=' m 'in' k" := (bind m (λ x, k))
  (at level 10, x pattern, m at level 100, k at level 200).

(** ** aiohttp *)
Module aiohttp.

(** [web.Request]: only [await request.json()] is used. *)
Record Request : Type := mkRequest { request_json : result json }.

(** [ClientResponse] of the model server: [status], [await response.json()],
    the items that [async for chunk in response.content] yields (the body
    line by line, each line with its terminator) and the exception, if any,
    that the iteration raises after the last of them ([ClientPayloadError]
    when the upstream body breaks off before its end). *)
Record ClientResponse : Type := mkClientResponse {
  status : Z;
  response_json : result json;
  content : list string;
  content_raises : option exn;
}.

(** [web.Response(status=.., body=..)], [web.json_response(data=.., status=..)]
    and a prepared [web.StreamResponse], whose body is what was written to it. *)
Inductive Response : Type :=
  | web_Response (status : Z) (body : option string)
  | json_response (data : json) (status : Z)
  | StreamResponse (content_type : string).

(** What a streaming handler does on the two connections, in program order. *)
Inductive stream_event : Type :=
  | prepare (content_type : string)
  | read (chunk : string)
  | write (chunk : string)
  | write_eof.

(** An endpoint handler as the backend sees it: the wire path and the
    response transform ([generate_response] / [generate_client_response]). *)
Record EndpointHandler : Type := mkEndpointHandler {
  endpoint : string;
  generate_response : Request → ClientResponse → list stream_event * result Response;
}.

(** [match response.status: case 200: data = await response.json();
    return web.json_response(data=data); case code: return web.Response(status=code)] *)
Definition json_generate_response (request : Request) (response : ClientResponse)
  : list stream_event * result Response :=
  if status response =? 200
  then match response_json response with
       | Return data => ([], Return (json_response data 200))
       | Raise e => ([], Raise e)
       end
  else ([], Return (web_Response (status response) None)).

(** [async for chunk in response.content: await res.write(chunk)] *)
Fixpoint forward_chunks (chunks : list string) : list stream_event :=
  match chunks with
  | [] => []
  | chunk :: rest => read chunk :: write chunk :: forward_chunks rest
  end.

(** [res = web.StreamResponse(); res.content_type = "text/event-stream";
    await res.prepare(request); <loop>; await res.write_eof(); return res].
    Nothing is caught: when the iteration raises, the chunks received have
    been written, the exception leaves the function and [write_eof] is not
    reached. The client connection is taken to accept every operation here;
    [with_client] below gives the run on a connection that fails. *)
Definition stream_generate_response (request : Request) (response : ClientResponse)
  : list stream_event * result Response :=
  if status response =? 200
  then match content_raises response with
       | None =>
           (prepare "text/event-stream" :: forward_chunks (content response) ++ [write_eof],
            Return (StreamResponse "text/event-stream"))
       | Some e =>
           (prepare "text/event-stream" :: forward_chunks (content response), Raise e)
       end
  else ([], Return (web_Response (status response) None)).

(** The operations on the client connection: [prepare], [write], [write_eof]. *)
Definition is_client_operation (ev : stream_event) : bool :=
  match ev with
  | read _ => false
  | _ => true
  end.

(** The events that precede the [k]-th operation on the client connection
    (counted from 0); [None] when there are not that many. *)
Fixpoint before_client_operation (k : nat) (events : list stream_event)
    : option (list stream_event) :=
  match events with
  | [] => None
  | ev :: rest =>
      if is_client_operation ev
      then match k with
           | O => Some []
           | S k' => cons ev <$> before_client_operation k' rest
           end
      else cons ev <$> before_client_operation k rest
  end.

(** A transform on a client connection that fails: [gone = Some (k, e)] when
    its [k]-th operation raises [e] (the client went away). [prepare], [write]
    and [write_eof] are awaited outside any [try], so the events before that
    operation have happened, the operation has not, and [e] leaves the
    transform; a run with fewer operations is not affected. *)
Definition with_client (gone : option (nat * exn))
    (run : list stream_event * result Response) : list stream_event * result Response :=
  match gone with
  | None => run
  | Some (k, e) =>
      match before_client_operation k run.1 with
      | Some before => (before, Raise e)
      | None => run
      end
  end.

(** The chunks taken from the upstream response and those written to the
    client, in order. *)
Definition chunks_read (events : list stream_event) : list string :=
  omap (λ ev, match ev with read chunk => Some chunk | _ => None end) events.

Definition chunks_written (events : list stream_event) : list string :=
  omap (λ ev, match ev with write chunk => Some chunk | _ => None end) events.

(** [async def handle_ping(_): return web.Response(body="pong")] *)
Definition handle_ping (_ : Request) : Response := web_Response 200 (Some "pong"%string).

End aiohttp.

(** ** lib.backend: the enumeration used by the workers' [log_actions] *)

(** Modelled from the spec: [LogAction] of lib/backend.py, which is not among
    the sources; section 4.1 names its three members. *)
Inductive LogAction : Type := ModelLoaded | Info | ModelError.

(** ** [from_json_msg], as a classmethod

    [cls_parameters] is [inspect.signature(cls).parameters] (the declared
    fields of the dataclass, in order) and [cls] the constructor called with
    keyword arguments. *)
Module ApiPayload.
Section from_json_msg.
Context {T : Type}.
Variable cls_parameters : list string.
Variable cls : gmap string json → result T.

(** The loop
    [for param in parameters: if param not in json_msg: errors[param] = ...] *)
Definition collect_errors (json_msg : gmap string json) : gmap string json :=
  foldl (λ errors param,
           match json_msg !! param with
           | None => <[param := JStr "missing parameter"]> errors
           | Some _ => errors
           end)
        ∅ cls_parameters.

(** The dict comprehension [{k: v for k, v in json_msg.items() if k in parameters}] *)
Definition declared_items (json_msg : gmap string json) : gmap string json :=
  filter (λ kv, kv.1 ∈ cls_parameters) json_msg.

(** [if errors: raise JsonDataException(errors)], then the constructor on the
    declared items. *)
Definition from_json_msg (json_msg : gmap string json) : result T :=
  let errors := collect_errors json_msg in
  if decide (size errors = 0%nat)
  then cls (declared_items json_msg)
  else Raise (JsonDataException errors).
End from_json_msg.
End ApiPayload.

(** ** lib/data_types.py, from the specification

    The module is imported by every worker ([EndpointHandler],
    [JsonDataException], [ApiPayload]) but is not among the sources. *)
Module lib_data_types.

(** Modelled from the spec: the auth context of section 3, which carries the
    request number; the handlers read [auth_data.reqnum]
    (lib/data_types.py is missing). *)
Record AuthData : Type := mkAuthData { reqnum : json }.

(** Modelled from the spec: the declared field of the auth context
    (lib/data_types.py is missing). *)
Definition AuthData_parameters : list string := ["reqnum"%string].

(** Modelled from the spec: the constructor of the auth context
    (lib/data_types.py is missing). *)
Definition AuthData_cls (kwargs : gmap string json) : result AuthData :=
  match kwargs !! "reqnum"%string with
  | Some v => Return (mkAuthData v)
  | None => Raise (TypeError "missing 1 required positional argument: 'reqnum'")
  end.

Section get_data_from_request.
Context {Payload : Type}.
Variable payload_from_json_msg : gmap string json → result Payload.

(** Modelled from the spec: [EndpointHandler.get_data_from_request]
    (lib/data_types.py is missing). Section 4.4 step 1 and section 6: the wire
    body carries the auth fields and the payload fields, both are validated
    field by field, and every missing field is reported in one
    field -> reason mapping. *)
Definition get_data_from_request (req_data : json) : result (AuthData * Payload) :=
  match req_data with
  | JObj body =>
      match ApiPayload.from_json_msg AuthData_parameters AuthData_cls body,
            payload_from_json_msg body with
      | Return auth_data, Return payload => Return (auth_data, payload)
      | Raise (JsonDataException e1), Raise (JsonDataException e2) =>
          Raise (JsonDataException (e1 ∪ e2))
      | Raise e, _ => Raise e
      | _, Raise e => Raise e
      end
  | _ => Raise (TypeError "the request body is not an object")
  end.
End get_data_from_request.

(** Modelled from the spec: the payload of workers/tgi/data_types.py, which is
    not among the sources; the scenario of section 8 names its two declared
    fields. *)
Record TgiInputData : Type := mkTgiInputData { inputs : json; parameters : json }.

(** Modelled from the spec: its declared fields, as the scenario names them
    (workers/tgi/data_types.py is missing). *)
Definition TgiInputData_parameters : list string := ["inputs"; "parameters"]%string.

(** Modelled from the spec: its constructor
    (workers/tgi/data_types.py is missing). *)
Definition TgiInputData_cls (kwargs : gmap string json) : result TgiInputData :=
  match kwargs !! "inputs"%string, kwargs !! "parameters"%string with
  | Some i, Some p => Return (mkTgiInputData i p)
  | _, _ => Raise (TypeError "missing required positional argument")
  end.

(** Modelled from the spec: its [from_json_msg], the classmethod of the
    payloads that are among the sources (workers/tgi/data_types.py is missing). *)
Definition TgiInputData_from_json_msg : gmap string json → result TgiInputData :=
  ApiPayload.from_json_msg TgiInputData_parameters TgiInputData_cls.

End lib_data_types.

(** ** lib/backend.py, from the specification

    The module is imported by every worker but is not among the sources. Its
    readiness monitor, request pipeline and concurrency gate are modelled from
    sections 3, 4.1, 4.2 and 4.4 of the specification. *)
Module lib_backend.

(** Modelled from the spec: the Health State of section 3,
    [Starting -> Loading -> Ready] with the absorbing [Crashed]
    (lib/backend.py is missing). *)
Inductive HealthState : Type := Starting | Loading | Ready | Crashed.

(** Modelled from the spec: matching is substring containment (section 4.1),
    Python's [marker in line] (lib/backend.py is missing). *)
Fixpoint contains (marker line : string) : bool :=
  String.prefix marker line
  || match line with
     | EmptyString => false
     | String _ rest => contains marker rest
     end.

(** Modelled from the spec: the effect of one matched rule (section 4.1;
    lib/backend.py is missing). [ModelLoaded] moves [Loading] to [Ready] and
    is idempotent, [Info] changes nothing, [ModelError] moves any state to
    [Crashed]. *)
Definition apply_action (action : LogAction) (h : HealthState) : HealthState :=
  match action with
  | ModelLoaded => match h with Loading => Ready | _ => h end
  | Info => h
  | ModelError => Crashed
  end.

(** Modelled from the spec: one log line is matched against all rules, in
    their order, and every match applies (section 4.1; lib/backend.py is
    missing). *)
Definition on_log_line (log_actions : list (LogAction * string))
    (h : HealthState) (line : string) : HealthState :=
  foldl (λ h rule, if contains rule.2 line then apply_action rule.1 h else h)
        h log_actions.

(** Modelled from the spec: the monitor reads the appended lines one by one
    (section 4.1; lib/backend.py is missing). *)
Definition monitor (log_actions : list (LogAction * string))
    (h : HealthState) (lines : list string) : HealthState :=
  foldl (on_log_line log_actions) h lines.

(** Modelled from the spec: a Workload Sample of section 3, without its two
    time stamps; [outcome] is [None] while the request is pending
    (lib/backend.py is missing). *)
Record WorkloadSample : Type := mkSample {
  units : Z;
  outcome : option bool;
}.

(** Modelled from the spec: the backend object, with the calls it has issued
    to the inference server and what it has written to clients
    (lib/backend.py is missing). *)
Record Backend : Type := mkBackend {
  health : HealthState;
  samples : list WorkloadSample;
  upstream_calls : list (string * gmap string json);
  client : list aiohttp.stream_event;
}.

(** Modelled from the spec: the server-unavailable response of step 2 of the
    pipeline (section 4.4; lib/backend.py is missing). *)
Definition not_ready_response : aiohttp.Response := aiohttp.web_Response 503 None.

Section pipeline.
Context {AuthData Payload : Type}.
(** The inference server: its answer to a POST, [Raise] on a transport
    failure. *)
Variable server : string → gmap string json → result aiohttp.ClientResponse.
(** The payload's workload estimate and forward transform. *)
Variable count_workload : Payload → Z.
Variable generate_payload_json : Payload → gmap string json.

(** Modelled from the spec: steps 2 to 9 of the request pipeline (section
    4.4) for a gate in Parallel mode, which admits at once
    (lib/backend.py is missing). *)
Definition handle_request (handler : aiohttp.EndpointHandler)
    (auth_data : AuthData) (payload : Payload) (request : aiohttp.Request)
    : M (State:=Backend) aiohttp.Response :=
  λ b,
  match health b with
  | Ready =>
      let body := generate_payload_json payload in
      let calls := upstream_calls b ++ [(aiohttp.endpoint handler, body)] in
      match server (aiohttp.endpoint handler) body with
      | Raise _ =>
          (Return (aiohttp.web_Response 500 None),
           mkBackend (health b)
                     (samples b ++ [mkSample (count_workload payload) (Some false)])
                     calls (client b))
      | Return response =>
          let '(written, answer) := aiohttp.generate_response handler request response in
          let ok := match answer with
                    | Return _ => bool_decide (aiohttp.status response = 200)
                    | Raise _ => false
                    end in
          (answer,
           mkBackend (health b)
                     (samples b ++ [mkSample (count_workload payload) (Some ok)])
                     calls (client b ++ written))
      end
  | _ => (Return not_ready_response, b)
  end.

(** [EndpointHandler.get_data_from_request] of the handler *)
Variable get_data_from_request : json → result (AuthData * Payload).

(** Modelled from the spec: [Backend.create_handler], the route function built
    for a handler (lib/backend.py is missing). Step 1 of section 4.4: the body
    is parsed; a validation failure is answered with 422 and the
    field -> reason mapping (section 6), nothing is recorded and nothing is
    forwarded; otherwise steps 2 to 9 follow. *)
Definition create_handler (handler : aiohttp.EndpointHandler)
    (request : aiohttp.Request) : M (State:=Backend) aiohttp.Response :=
  let* data := lift (aiohttp.request_json request) in
  match get_data_from_request data with
  | Raise (JsonDataException message) =>
      ret (aiohttp.json_response (JObj message) 422)
  | Raise e => raise e
  | Return (auth_data, payload) => handle_request handler auth_data payload request
  end.
End pipeline.

(** *** The worker process: log lines and requests, in the order they occur *)

(** Modelled from the spec: what the worker process reacts to, a line appended
    to the log (section 4.1) or a POST to a path (section 6)
    (lib/backend.py and lib/server.py are missing). *)
Inductive worker_event : Type :=
  | LogLine (line : string)
  | Post (path : string) (request : aiohttp.Request).

(** Modelled from the spec: an entry of the routing table, a path and its
    handler function (lib/server.py is missing). *)
Definition Route : Type :=
  (string * (aiohttp.Request → M (State:=Backend) aiohttp.Response))%type.

(** Modelled from the spec: the first route of the path
    (lib/server.py is missing). *)
Fixpoint find_route (routes : list Route) (path : string)
    : option (aiohttp.Request → M (State:=Backend) aiohttp.Response) :=
  match routes with
  | [] => None
  | (p, handle) :: rest => if decide (p = path) then Some handle else find_route rest path
  end.

(** Modelled from the spec: the monitor is the only writer of the Health State
    (section 5), and a request runs the handler its path is routed to
    (lib/backend.py and lib/server.py are missing). *)
Definition worker_step (log_actions : list (LogAction * string)) (routes : list Route)
    (b : Backend) (ev : worker_event) : Backend :=
  match ev with
  | LogLine line =>
      mkBackend (on_log_line log_actions (health b) line)
                (samples b) (upstream_calls b) (client b)
  | Post path request =>
      match find_route routes path with
      | Some handle => (handle request b).2
      | None => b
      end
  end.

(** Modelled from the spec: the worker over a sequence of events
    (lib/backend.py and lib/server.py are missing). *)
Definition worker_run (log_actions : list (LogAction * string)) (routes : list Route)
    (b : Backend) (events : list worker_event) : Backend :=
  foldl (worker_step log_actions routes) b events.

(** *** The concurrency gate (section 4.2) *)

(** Modelled from the spec: the two configured modes of section 4.2,
    [allow_parallel_requests] true and false (lib/backend.py is missing). *)
Inductive Mode : Type := Parallel | Exclusive.

(** Modelled from the spec: the gate holds the requests in flight and the
    FIFO queue of the waiting ones (lib/backend.py is missing). *)
Record Gate : Type := mkGate {
  mode : Mode;
  in_flight : list nat;
  queue : list nat;
}.

(** Modelled from the spec: the gate at startup (lib/backend.py is missing). *)
Definition new_gate (m : Mode) : Gate := mkGate m [] [].

(** Modelled from the spec: what happens at the gate (section 4.2), a request,
    named by its request number, arrives, or the response of a request in
    flight is fully drained, with success or failure
    (lib/backend.py is missing). *)
Inductive gate_input : Type :=
  | Submit (r : nat)
  | Finish (r : nat) (ok : bool).

(** Modelled from the spec: what the gate lets happen, the upstream call of a
    request starts, a request has completed (lib/backend.py is missing). *)
Inductive gate_output : Type :=
  | Started (r : nat)
  | Drained (r : nat) (ok : bool).

(** Modelled from the spec: a completed request leaves the requests in flight
    (lib/backend.py is missing). *)
Definition remove (r : nat) (l : list nat) : list nat :=
  filter (λ x, x ≠ r) l.

(** Modelled from the spec: section 4.2 (lib/backend.py is missing). Parallel:
    every request proceeds at once. Exclusive: a request proceeds at once
    only when none is in flight, else it joins the tail of the queue; when
    the request in flight completes, whatever its outcome, the head of the
    queue is released. [None]: [Finish] of a request that is not in flight. *)
Definition step (g : Gate) (i : gate_input) : option (Gate * list gate_output) :=
  match i with
  | Submit r =>
      match mode g with
      | Parallel => Some (mkGate Parallel (in_flight g ++ [r]) (queue g), [Started r])
      | Exclusive =>
          match in_flight g with
          | [] => Some (mkGate Exclusive [r] (queue g), [Started r])
          | _ :: _ => Some (mkGate Exclusive (in_flight g) (queue g ++ [r]), [])
          end
      end
  | Finish r ok =>
      if decide (r ∈ in_flight g)
      then
        match mode g with
        | Parallel => Some (mkGate Parallel (remove r (in_flight g)) (queue g), [Drained r ok])
        | Exclusive =>
            match queue g with
            | [] => Some (mkGate Exclusive (remove r (in_flight g)) [], [Drained r ok])
            | next :: rest =>
                Some (mkGate Exclusive (remove r (in_flight g) ++ [next]) rest,
                      [Drained r ok; Started next])
            end
        end
      else None
  end.

(** Modelled from the spec: the gate run over a sequence of inputs, with
    everything it let happen (lib/backend.py is missing). *)
Fixpoint run (g : Gate) (inputs : list gate_input) : option (Gate * list gate_output) :=
  match inputs with
  | [] => Some (g, [])
  | i :: rest =>
      match step g i with
      | None => None
      | Some (g', out) =>
          match run g' rest with
          | None => None
          | Some (g'', out') => Some (g'', out ++ out')
          end
      end
  end.

(** Modelled from the spec: the request numbers in arrival order
    (lib/backend.py is missing). *)
Definition submitted (inputs : list gate_input) : list nat :=
  omap (λ i, match i with Submit r => Some r | _ => None end) inputs.

(** Modelled from the spec: the request numbers in the order their upstream
    calls start (lib/backend.py is missing). *)
Definition started (out : list gate_output) : list nat :=
  omap (λ o, match o with Started r => Some r | _ => None end) out.

(** Modelled from the spec: the request numbers in completion order
    (lib/backend.py is missing). *)
Definition drained (out : list gate_output) : list nat :=
  omap (λ o, match o with Drained r _ => Some r | _ => None end) out.

(** Modelled from the spec: the invariant of an Exclusive gate, at most one
    request in flight and nobody waiting while none is
    (lib/backend.py is missing). *)
Definition exclusive_inv (g : Gate) : Prop :=
  mode g = Exclusive
  ∧ (length (in_flight g) ≤ 1)%nat
  ∧ (in_flight g = [] → queue g = []).

(** Modelled from the spec: replaying what the gate let happen, from the
    request in flight before; the result is the request in flight afterwards,
    or [None] when a call starts while another is in flight or a request
    completes that is not the one in flight (lib/backend.py is missing). *)
Fixpoint replay (holder : option nat) (out : list gate_output) : option (option nat) :=
  match out with
  | [] => Some holder
  | Started r :: rest =>
      match holder with
      | None => replay (Some r) rest
      | Some _ => None
      end
  | Drained r _ :: rest =>
      match holder with
      | Some r' => if decide (r = r') then replay None rest else None
      | None => None
      end
  end.

End lib_backend.

(** ** workers/whisper/data_types.py *)
Module whisper.

Record InputData : Type := mkInputData { audio_file : json }.

(** [inspect.signature(InputData).parameters] *)
Definition parameters : list string := ["audio_file"%string].

(** The constructor called with keyword arguments: the generated [__init__]
    rejects unknown keywords and requires [audio_file]; the [str] annotation
    is not checked. *)
Definition cls (kwargs : gmap string json) : result InputData :=
  if decide (dom kwargs ⊆ ({["audio_file"%string]} : gset string))
  then match kwargs !! "audio_file"%string with
       | Some v => Return (mkInputData v)
       | None => Raise (TypeError "missing 1 required positional argument: 'audio_file'")
       end
  else Raise (TypeError "got an unexpected keyword argument").

Definition for_test : InputData := mkInputData (JStr "misc/samples_jfk.mp3").

(** [dataclasses.asdict(self)] *)
Definition generate_payload_json (self : InputData) : gmap string json :=
  {[ "audio_file"%string := audio_file self ]}.

Definition count_workload (self : InputData) : Z := 11.

Definition from_json_msg : gmap string json → result InputData :=
  ApiPayload.from_json_msg parameters cls.

(** *** workers/whisper/server.py *)

Definition MODEL_SERVER_URL : string := "http://0.0.0.0:9000".
Definition MODEL_SERVER_START_LOG_MSG : string := "Application startup complete.".
Definition MODEL_SERVER_ERROR_LOG_MSGS : list string :=
  ["CUDA error"; "CUDA out of memory"]%string.

(** [AsrHandler]: [endpoint] and [generate_client_response] *)
Definition AsrHandler : aiohttp.EndpointHandler :=
  aiohttp.mkEndpointHandler "/asr" aiohttp.json_generate_response.

Definition AsrBulkHandler : aiohttp.EndpointHandler :=
  aiohttp.mkEndpointHandler "/asr-bulk" aiohttp.json_generate_response.

(** [AsrHandler.generate_payload_json] and [make_benchmark_payload] *)
Definition AsrHandler_generate_payload_json (payload : InputData) : gmap string json :=
  {[ "audio_file"%string := audio_file payload ]}.

Definition AsrHandler_make_benchmark_payload : InputData := for_test.

(** The [log_actions] argument of [Backend(...)] *)
Definition log_actions : list (LogAction * string) :=
  (ModelLoaded, MODEL_SERVER_START_LOG_MSG)
    :: (Info, "100%"%string)
    :: ((λ error_msg, (ModelError, error_msg)) <$> MODEL_SERVER_ERROR_LOG_MSGS).

Definition allow_parallel_requests : bool := true.

(** The POST entry of [routes]: [web.post("/asr", backend.create_handler(AsrHandler()))] *)
Definition routes {AuthData : Type}
    (server : string → gmap string json → result aiohttp.ClientResponse)
    (get_data_from_request : json → result (AuthData * InputData))
    : list lib_backend.Route :=
  [("/asr"%string,
    lib_backend.create_handler server count_workload AsrHandler_generate_payload_json
      get_data_from_request AsrHandler)].

End whisper.

(** ** workers/tgi/server.py

    [get_data_from_request] (inherited from lib.data_types.EndpointHandler) and
    the global [backend]'s [handle_request] (lib.backend.Backend) are not among
    the sources; the handlers are embedded over them. *)
Module tgi.

Definition MODEL_SERVER_URL : string := "http://0.0.0.0:5001".
Definition MODEL_SERVER_START_LOG_MSG : string :=
  dq +:+ "message" +:+ dq +:+ ":" +:+ dq +:+ "Connected" +:+ dq +:+ ","
    +:+ dq +:+ "target" +:+ dq +:+ ":" +:+ dq +:+ "text_generation_router" +:+ dq.
Definition MODEL_SERVER_ERROR_LOG_MSGS : list string :=
  ["Error: WebserverFailed"; "Error: DownloadError"]%string.

Definition log_actions : list (LogAction * string) :=
  (ModelLoaded, MODEL_SERVER_START_LOG_MSG)
    :: (Info, dq +:+ "message" +:+ dq +:+ ":" +:+ dq +:+ "Download")
    :: ((λ error_msg, (ModelError, error_msg)) <$> MODEL_SERVER_ERROR_LOG_MSGS).

Definition allow_parallel_requests : bool := true.

Definition GenerateHandler : aiohttp.EndpointHandler :=
  aiohttp.mkEndpointHandler "/generate" aiohttp.json_generate_response.

Definition GenerateStreamHandler : aiohttp.EndpointHandler :=
  aiohttp.mkEndpointHandler "/generate_stream" aiohttp.stream_generate_response.

Section handle_request.
Context {State AuthData Payload : Type}.
Variable get_data_from_request : json → result (AuthData * Payload).
Variable backend_handle_request :
  aiohttp.EndpointHandler → AuthData → Payload → aiohttp.Request
  → M (State:=State) aiohttp.Response.

(** [GenerateHandler.handle_request]: the [JsonDataException] of
    [get_data_from_request] is caught and answered with 422. *)
Definition GenerateHandler_handle_request
    (self : aiohttp.EndpointHandler) (request : aiohttp.Request) : M aiohttp.Response :=
  let* data := lift (aiohttp.request_json request) in
  match get_data_from_request data with
  | Raise (JsonDataException message) =>
      ret (aiohttp.json_response (JObj message) 422)
  | Raise e => raise e
  | Return (auth_data, payload) =>
      try_except_Exception
        (backend_handle_request self auth_data payload request)
        (λ _, ret (aiohttp.web_Response 500 None))
  end.

(** [GenerateStreamHandler.handle_request]: [get_data_from_request] is
    called outside any [try]. *)
Definition GenerateStreamHandler_handle_request
    (self : aiohttp.EndpointHandler) (request : aiohttp.Request) : M aiohttp.Response :=
  let* data := lift (aiohttp.request_json request) in
  let* (auth_data, payload) := lift (get_data_from_request data) in
  try_except_Exception
    (backend_handle_request self auth_data payload request)
    (λ _, ret (aiohttp.web_Response 500 None)).

(** The POST entries of [routes] *)
Definition routes : list (string * (aiohttp.Request → M aiohttp.Response)) :=
  [("/generate"%string, GenerateHandler_handle_request GenerateHandler);
   ("/generate_stream"%string, GenerateStreamHandler_handle_request GenerateStreamHandler)].
End handle_request.

End tgi.

(** ** workers/hello_world/server.py *)
Module hello_world.

Definition MODEL_SERVER_URL : string := "http://0.0.0.0:5001".
Definition MODEL_SERVER_START_LOG_MSG : string := "infer server has started".
Definition MODEL_SERVER_ERROR_LOG_MSGS : list string :=
  ["Exception: corrupted model file"%string].

Definition log_actions : list (LogAction * string) :=
  (ModelLoaded, MODEL_SERVER_START_LOG_MSG)
    :: (Info, dq +:+ "message" +:+ dq +:+ ":" +:+ dq +:+ "Download")
    :: ((λ error_msg, (ModelError, error_msg)) <$> MODEL_SERVER_ERROR_LOG_MSGS).

Definition allow_parallel_requests : bool := true.

Definition GenerateHandler : aiohttp.EndpointHandler :=
  aiohttp.mkEndpointHandler "/generate" aiohttp.json_generate_response.

Definition GenerateStreamHandler : aiohttp.EndpointHandler :=
  aiohttp.mkEndpointHandler "/generate_stream" aiohttp.stream_generate_response.

Section handle_request.
Context {State AuthData Payload : Type}.
Variable get_data_from_request : json → result (AuthData * Payload).
Variable backend_handle_request :
  aiohttp.EndpointHandler → AuthData → Payload → aiohttp.Request
  → M (State:=State) aiohttp.Response.

(** [GenerateHandler.handle_request]: [get_data_from_request] is called
    outside any [try]. *)
Definition GenerateHandler_handle_request
    (self : aiohttp.EndpointHandler) (request : aiohttp.Request) : M aiohttp.Response :=
  let* data := lift (aiohttp.request_json request) in
  let* (auth_data, payload) := lift (get_data_from_request data) in
  try_except_Exception
    (backend_handle_request self auth_data payload request)
    (λ _, ret (aiohttp.web_Response 500 None)).

(** [GenerateStreamHandler.handle_request]: the [JsonDataException] is
    caught and answered with 422. *)
Definition GenerateStreamHandler_handle_request
    (self : aiohttp.EndpointHandler) (request : aiohttp.Request) : M aiohttp.Response :=
  let* data := lift (aiohttp.request_json request) in
  match get_data_from_request data with
  | Raise (JsonDataException message) =>
      ret (aiohttp.json_response (JObj message) 422)
  | Raise e => raise e
  | Return (auth_data, payload) =>
      try_except_Exception
        (backend_handle_request self auth_data payload request)
        (λ _, ret (aiohttp.web_Response 500 None))
  end.

Definition routes : list (string * (aiohttp.Request → M aiohttp.Response)) :=
  [("/generate"%string, GenerateHandler_handle_request GenerateHandler);
   ("/generate_stream"%string, GenerateStreamHandler_handle_request GenerateStreamHandler)].
End handle_request.

End hello_world.

(** ** tgi_backend.py

    The answer of the model server to [requests.post] / [requests.get] is an
    argument: [Raise e] when the call raises, else the response object. *)
Module tgi_backend.

Definition MODEL_SERVER : string := "127.0.0.1:5001".

(** [requests.Response]: [status_code], [content], the lines that
    [iter_lines()] yields (line terminators stripped) and the exception, if
    any, that the iteration raises after the last of them. *)
Record requests_Response : Type := mkResponse {
  status_code : Z;
  content : string;
  iter_lines : list string;
  iter_raises : option exn;
}.

(** What [hf_tgi_wrapper] does, in program order: calls on [self.metrics],
    the upstream call and the items the generator yields. *)
Inductive event : Type :=
  | start_req (text_prompt parameters : json)
  | post (url : string) (body : gmap string json)
  | yield (item : string)
  | finish_req (text_prompt parameters : json).

(** The body of the [try] block: its events and the exception that leaves it. *)
Definition hf_tgi_try (inputs parameters : json) (hf_prompt : gmap string json)
    (upstream : result requests_Response) : list event * option exn :=
  let call := post ("http://" +:+ MODEL_SERVER +:+ "/generate_stream") hf_prompt in
  match upstream with
  | Raise e => ([call], Some e)
  | Return response =>
      if status_code response =? 200
      then
        let yielded :=
          flat_map (λ byte_payload, [yield byte_payload; yield nl]) (iter_lines response) in
        match iter_raises response with
        | Some e => (call :: yielded, Some e)
        | None => (call :: yielded ++ [finish_req inputs parameters], None)
        end
      else ([call; finish_req inputs parameters], None)
  end.

(** The generator with every item taken, run to its end: every event, and
    the exception that escapes it ([except requests.exceptions.RequestException]
    swallows that class only). [hf_tgi_wrapper_consumed] below is the
    generator under a consumer that may close it. *)
Definition hf_tgi_wrapper (inputs parameters : json)
    (upstream : result requests_Response) : list event * option exn :=
  let hf_prompt : gmap string json :=
    <["inputs"%string := inputs]> (<["parameters"%string := parameters]> ∅) in
  let '(events, raised) := hf_tgi_try inputs parameters hf_prompt upstream in
  (start_req inputs parameters :: events,
   match raised with
   | Some (RequestException _) => None
   | other => other
   end).

(** The items of the generator, in order *)
Definition yielded (events : list event) : list string :=
  omap (λ ev, match ev with yield item => Some item | _ => None end) events.

(** A generator body runs on demand. When the consumer closes the generator
    after its [n]-th item, what has happened is what precedes that [yield],
    the item included, and nothing at all when it is closed before its first
    item. *)
Fixpoint until_item (n : nat) (events : list event) : list event :=
  match events with
  | [] => []
  | ev :: rest =>
      match n with
      | O => []
      | S n' =>
          match ev with
          | yield _ => ev :: match n' with
                             | O => []
                             | S _ => until_item n' rest
                             end
          | _ => ev :: until_item n rest
          end
      end
  end.

(** The consumer of the generator (Flask, writing the items to the client):
    [None] when it takes the items until the generator ends, [Some n] when it
    closes the generator after its [n]-th item because the client went away.
    It reads to the end unless it closes at an item the generator has. *)
Definition reads_to_the_end (consumer : option nat) (events : list event) : Prop :=
  match consumer with
  | None => True
  | Some n => (length (yielded events) < n)%nat
  end.

(** [hf_tgi_wrapper] under its consumer. [close()] raises [GeneratorExit] at
    the [yield] where the generator is suspended;
    [except requests.exceptions.RequestException] does not catch it, so the
    rest of the body, [finish_req] included, is skipped, and [close()] itself
    returns normally. *)
Definition hf_tgi_wrapper_consumed (inputs parameters : json)
    (upstream : result requests_Response) (consumer : option nat)
    : list event * option exn :=
  let run := hf_tgi_wrapper inputs parameters upstream in
  match consumer with
  | None => run
  | Some n =>
      if decide (n ≤ length (yielded run.1))%nat
      then (until_item n run.1, None)
      else run
  end.

(** The samples opened and closed on [self.metrics]. *)
Definition samples_started (events : list event) : nat :=
  length (omap (λ ev, match ev with start_req _ _ => Some ev | _ => None end) events).

Definition samples_finished (events : list event) : nat :=
  length (omap (λ ev, match ev with finish_req _ _ => Some ev | _ => None end) events).

(** [flask.Response]: the status (200 unless given) and the body iterable. *)
Record flask_Response : Type := mkFlaskResponse {
  status : Z;
  response : list string;
}.

(** [generate_stream]: [Response(self.hf_tgi_wrapper(model_request["inputs"],
    model_request["parameters"]))]; the second and third components are the
    events and the exception of iterating the body. *)
Definition generate_stream (model_request : gmap string json)
    (upstream : result requests_Response)
    : result flask_Response * list event * option exn :=
  match model_request !! "inputs"%string with
  | None => (Raise (KeyError "inputs"), [], None)
  | Some inputs =>
      match model_request !! "parameters"%string with
      | None => (Raise (KeyError "parameters"), [], None)
      | Some parameters =>
          let '(events, raised) := hf_tgi_wrapper inputs parameters upstream in
          (Return (mkFlaskResponse 200 (yielded events)), events, raised)
      end
  end.

(** [health_handler] *)
Definition health_handler (upstream : result requests_Response)
    : result (Z * option string) :=
  match upstream with
  | Return response =>
      if status_code response =? 200
      then Return (200, Some ""%string)
      else Return (status_code response, None)
  | Raise (RequestException _) => Return (500, None)
  | Raise e => Raise e
  end.

(** [info_handler] and [metrics_handler] have the same body. *)
Definition info_handler (upstream : result requests_Response)
    : result (Z * option string) :=
  match upstream with
  | Return response =>
      if status_code response =? 200
      then Return (200, Some (content response))
      else Return (status_code response, None)
  | Raise (RequestException _) => Return (500, None)
  | Raise e => Raise e
  end.

Definition metrics_handler := info_handler.

End tgi_backend.

(** The handler classes of the three workers. *)
Definition endpoint_handlers : list aiohttp.EndpointHandler :=
  [whisper.AsrHandler; whisper.AsrBulkHandler;
   tgi.GenerateHandler; tgi.GenerateStreamHandler;
   hello_world.GenerateHandler; hello_world.GenerateStreamHandler].

(** ** The status a client sees

    [web.Response.status]; [web.json_response] and [web.StreamResponse] carry
    200 unless a status is given. *)
Definition Response_status (r : aiohttp.Response) : Z :=
  match r with
  | aiohttp.web_Response status _ => status
  | aiohttp.json_response _ status => status
  | aiohttp.StreamResponse _ => 200
  end.

(** The events of [hf_tgi_wrapper] after its first two: an item yielded or the
    closing [finish_req]. *)
Definition is_yield_or_finish (ev : tgi_backend.event) : Prop :=
  match ev with
  | tgi_backend.yield _ | tgi_backend.finish_req _ _ => True
  | _ => False
  end.

(** The upstream lets the [try] block of [hf_tgi_wrapper] run to its end: the
    server answered and, when the status is 200, the iteration over the lines
    did not raise. *)
Definition try_block_completes (upstream : result tgi_backend.requests_Response) : Prop :=
  match upstream with
  | Return response =>
      tgi_backend.status_code response ≠ 200 ∨ tgi_backend.iter_raises response = None
  | Raise _ => False
  end.

(** * Theorems *)

(** ** Payload validation ([from_json_msg]) *)
Section validation.
Context {T : Type}.
Variable cls_parameters : list string.
Variable cls : gmap string json → result T.

(** The loop over the declared parameters, started from any dict. *)
Lemma collect_errors_from (json_msg acc : gmap string json) (k : string) :
  foldl (λ errors param,
           match json_msg !! param with
           | None => <[param := JStr "missing parameter"]> errors
           | Some _ => errors
           end) acc cls_parameters !! k
  = if decide (k ∈ cls_parameters ∧ json_msg !! k = None)
    then Some (JStr "missing parameter")
    else acc !! k.
Proof.
  revert acc. induction cls_parameters as [|p ps IH]; intros acc; cbn [foldl].
  - rewrite decide_False; [done|]. intros [H _]. by apply elem_of_nil in H.
  - rewrite IH.
    destruct (decide (k ∈ ps ∧ json_msg !! k = None)) as [[Hin Hk]|Hn].
    + rewrite decide_True; [done|]. split; [by apply elem_of_cons; right|done].
    + destruct (decide (k = p)) as [->|Hne].
      * destruct (json_msg !! p) as [v|] eqn:Hp.
        -- rewrite decide_False; [done|]. intros [_ ?]; congruence.
        -- rewrite lookup_insert_eq. rewrite decide_True; [done|].
           split; [by apply elem_of_cons; left|done].
      * rewrite decide_False.
        -- destruct (json_msg !! p); [done|]. by rewrite lookup_insert_ne.
        -- intros [Hin Hk]. apply elem_of_cons in Hin as [?|Hin]; [done|].
           by apply Hn.
Qed.

Lemma collect_errors_lookup (json_msg : gmap string json) (k : string) :
  ApiPayload.collect_errors cls_parameters json_msg !! k
  = if decide (k ∈ cls_parameters ∧ json_msg !! k = None)
    then Some (JStr "missing parameter")
    else None.
Proof.
  unfold ApiPayload.collect_errors. by rewrite collect_errors_from, lookup_empty.
Qed.

Lemma collect_errors_empty_iff (json_msg : gmap string json) :
  size (ApiPayload.collect_errors cls_parameters json_msg) = 0%nat
  ↔ ∀ k, k ∈ cls_parameters → is_Some (json_msg !! k).
Proof.
  rewrite map_size_empty_iff. split.
  - intros He k Hk. destruct (json_msg !! k) eqn:Hl; [by eexists|].
    exfalso. pose proof (collect_errors_lookup json_msg k) as Hc.
    rewrite He, lookup_empty in Hc. case_decide; [done|naive_solver].
  - intros Hall. apply map_eq. intros k.
    rewrite collect_errors_lookup, lookup_empty.
    case_decide as H; [|done]. destruct H as [Hin Hnone].
    apply Hall in Hin as [? ?]. congruence.
Qed.

Lemma from_json_msg_raises (json_msg : gmap string json) (k : string) :
  k ∈ cls_parameters → json_msg !! k = None →
  ApiPayload.from_json_msg cls_parameters cls json_msg
  = Raise (JsonDataException (ApiPayload.collect_errors cls_parameters json_msg)).
Proof.
  intros Hin Hnone. unfold ApiPayload.from_json_msg. simpl.
  case_decide as Hsz; [|done].
  destruct (proj1 (collect_errors_empty_iff json_msg) Hsz k Hin). congruence.
Qed.

Lemma from_json_msg_constructs (json_msg : gmap string json) :
  (∀ k, k ∈ cls_parameters → is_Some (json_msg !! k)) →
  ApiPayload.from_json_msg cls_parameters cls json_msg
  = cls (ApiPayload.declared_items cls_parameters json_msg).
Proof.
  intros Hall. unfold ApiPayload.from_json_msg. simpl.
  case_decide as Hsz; [done|]. by apply collect_errors_empty_iff in Hall.
Qed.

End validation.

(** *** workers/whisper/data_types.py *)

Lemma whisper_declared_items (json_msg : gmap string json) (v : json) :
  json_msg !! "audio_file"%string = Some v →
  ApiPayload.declared_items whisper.parameters json_msg = {[ "audio_file"%string := v ]}.
Proof.
  intros Hv. apply map_eq. intros k. unfold ApiPayload.declared_items.
  destruct (decide (k = "audio_file"%string)) as [->|Hne].
  - rewrite lookup_singleton_eq. apply map_lookup_filter_Some. split; [done|].
    simpl. unfold whisper.parameters. set_solver.
  - rewrite lookup_singleton_ne by done. apply map_lookup_filter_None. right.
    intros x _. simpl. unfold whisper.parameters. by rewrite list_elem_of_singleton.
Qed.

Lemma whisper_from_json_msg_eq (json_msg : gmap string json) :
  whisper.from_json_msg json_msg
  = match json_msg !! "audio_file"%string with
    | Some v => Return (whisper.mkInputData v)
    | None =>
        Raise (JsonDataException {[ "audio_file"%string := JStr "missing parameter" ]})
    end.
Proof.
  unfold whisper.from_json_msg.
  destruct (json_msg !! "audio_file"%string) as [v|] eqn:Hv.
  - rewrite from_json_msg_constructs.
    + rewrite (whisper_declared_items _ v Hv). unfold whisper.cls.
      rewrite dom_singleton_L, lookup_singleton_eq.
      by rewrite decide_True.
    + intros k Hk. unfold whisper.parameters in Hk.
      apply list_elem_of_singleton in Hk as ->. by eexists.
  - rewrite (from_json_msg_raises _ _ _ "audio_file"%string); [|by constructor|done].
    unfold ApiPayload.collect_errors, whisper.parameters. simpl. by rewrite Hv.
Qed.

(** C1: validation enumerates exactly the declared fields that the body
    misses. For every class (declared parameters and constructor) and every
    JSON object: a key is in the error dict iff it is a declared parameter
    absent from the body, and its reason is "missing parameter"; when some
    declared field is missing, [from_json_msg] raises [JsonDataException] with
    that dict; when none is missing it raises no validation failure and goes on
    to the constructor. For the whisper [InputData] the outcome is spelled out. *)
Theorem C1_validation_enumerates_exactly_the_missing_fields :
  ∀ (T : Type) (cls_parameters : list string) (cls : gmap string json → result T)
    (json_msg : gmap string json),
    let errors := ApiPayload.collect_errors cls_parameters json_msg in
    (∀ k, is_Some (errors !! k) ↔ k ∈ cls_parameters ∧ json_msg !! k = None)
    ∧ (∀ k reason, errors !! k = Some reason → reason = JStr "missing parameter")
    ∧ ((∃ k, k ∈ cls_parameters ∧ json_msg !! k = None) →
       ApiPayload.from_json_msg cls_parameters cls json_msg = Raise (JsonDataException errors))
    ∧ ((∀ k, k ∈ cls_parameters → is_Some (json_msg !! k)) →
       ApiPayload.from_json_msg cls_parameters cls json_msg
       = cls (ApiPayload.declared_items cls_parameters json_msg))
    ∧ (whisper.from_json_msg json_msg
       = match json_msg !! "audio_file"%string with
         | Some v => Return (whisper.mkInputData v)
         | None =>
             Raise (JsonDataException {[ "audio_file"%string := JStr "missing parameter" ]})
         end).
Proof.
  intros T cls_parameters cls json_msg errors. subst errors.
  split; [|split; [|split; [|split]]].
  - intros k. rewrite collect_errors_lookup. split.
    + intros [r Hr]. by case_decide.
    + intros H. rewrite decide_True by done. by eexists.
  - intros k reason Hr. rewrite collect_errors_lookup in Hr.
    case_decide; congruence.
  - intros (k & Hin & Hnone). by eapply from_json_msg_raises.
  - apply from_json_msg_constructs.
  - apply whisper_from_json_msg_eq.
Qed.

(** The scenario of the specification: a body without [inputs] and
    [parameters] is answered with both fields, each "missing parameter". *)
Example validation_scenario_inputs_parameters :
  lib_data_types.TgiInputData_from_json_msg {[ "reqnum"%string := JNum 1 ]}
  = Raise (JsonDataException
             (<["inputs"%string := JStr "missing parameter"]>
                (<["parameters"%string := JStr "missing parameter"]> ∅))).
Proof. vm_compute. reflexivity. Qed.

(** Extra keys are not reported and a present field is not either. *)
Example validation_reports_only_missing :
  ApiPayload.collect_errors ["a"; "b"; "c"]%string
    (<["b"%string := JNull]> (<["zzz"%string := JNum 7]> ∅))
  = <["a"%string := JStr "missing parameter"]> (<["c"%string := JStr "missing parameter"]> ∅).
Proof. vm_compute. reflexivity. Qed.

(** C10: [InputData.from_json_msg] raises iff a declared field is missing, and
    then it is a [JsonDataException]; a key that is not declared changes
    nothing (it is neither reported nor kept); on success the payload holds
    the declared fields of the body and nothing else. *)
Theorem C10_from_json_msg_raises_iff_missing_and_drops_extra_keys :
  ∀ json_msg : gmap string json,
    ((∃ e, whisper.from_json_msg json_msg = Raise e)
     ↔ (∃ k, k ∈ whisper.parameters ∧ json_msg !! k = None))
    ∧ (∀ e, whisper.from_json_msg json_msg = Raise e →
            e = JsonDataException (ApiPayload.collect_errors whisper.parameters json_msg))
    ∧ (∀ k v, k ∉ whisper.parameters →
              whisper.from_json_msg (<[k := v]> json_msg) = whisper.from_json_msg json_msg)
    ∧ (∀ p, whisper.from_json_msg json_msg = Return p →
            whisper.generate_payload_json p
            = filter (λ kv, kv.1 ∈ whisper.parameters) json_msg
            ∧ dom (whisper.generate_payload_json p) = list_to_set whisper.parameters).
Proof.
  intros json_msg. split; [|split; [|split]].
  - rewrite whisper_from_json_msg_eq. split.
    + intros [e He]. exists "audio_file"%string. split; [by constructor|].
      by destruct (json_msg !! "audio_file"%string).
    + intros (k & Hk & Hnone). unfold whisper.parameters in Hk.
      apply list_elem_of_singleton in Hk as ->. rewrite Hnone. by eexists.
  - intros e He. rewrite whisper_from_json_msg_eq in He.
    destruct (json_msg !! "audio_file"%string) eqn:Hv; [done|].
    inversion He. unfold ApiPayload.collect_errors, whisper.parameters. simpl.
    by rewrite Hv.
  - intros k v Hk. rewrite !whisper_from_json_msg_eq, lookup_insert_ne; [done|].
    intros ->. apply Hk. by constructor.
  - intros p Hp. rewrite whisper_from_json_msg_eq in Hp.
    destruct (json_msg !! "audio_file"%string) as [v|] eqn:Hv; [|done].
    inversion Hp; subst. unfold whisper.generate_payload_json. simpl. split.
    + symmetry. by apply whisper_declared_items.
    + unfold whisper.parameters. rewrite dom_singleton_L. set_solver.
Qed.

(** C9: [count_workload] is the constant 11 on every payload, whatever its
    [audio_file]; in particular it agrees with the canonical test instance. *)
Theorem C9_count_workload_is_the_constant_11 :
  ∀ p : whisper.InputData,
    whisper.count_workload p = 11
    ∧ (∀ audio_file : json,
         whisper.count_workload (whisper.mkInputData audio_file) = whisper.count_workload p)
    ∧ whisper.count_workload p = whisper.count_workload whisper.for_test.
Proof. intros p. repeat split. Qed.

(** ** The endpoint handlers' [handle_request] *)
Section handlers.
Context {State AuthData Payload : Type}.
Variable get_data_from_request : json → result (AuthData * Payload).
Variable backend_handle_request :
  aiohttp.EndpointHandler → AuthData → Payload → aiohttp.Request
  → M (State:=State) aiohttp.Response.

(** The handlers that catch the validation failure answer 422 with the
    exception's message and leave the backend alone. *)
Lemma tgi_GenerateHandler_validation_failure self request data message (s : State) :
  aiohttp.request_json request = Return data →
  get_data_from_request data = Raise (JsonDataException message) →
  tgi.GenerateHandler_handle_request get_data_from_request backend_handle_request self request s
  = (Return (aiohttp.json_response (JObj message) 422), s).
Proof.
  intros Hd Hg. unfold tgi.GenerateHandler_handle_request, bind, lift.
  by rewrite Hd, Hg.
Qed.

Lemma hello_world_GenerateStreamHandler_validation_failure self request data message (s : State) :
  aiohttp.request_json request = Return data →
  get_data_from_request data = Raise (JsonDataException message) →
  hello_world.GenerateStreamHandler_handle_request
    get_data_from_request backend_handle_request self request s
  = (Return (aiohttp.json_response (JObj message) 422), s).
Proof.
  intros Hd Hg. unfold hello_world.GenerateStreamHandler_handle_request, bind, lift.
  by rewrite Hd, Hg.
Qed.

(** The handlers that call [get_data_from_request] outside a [try] let every
    exception of it escape. *)
Lemma tgi_GenerateStreamHandler_validation_failure self request data e (s : State) :
  aiohttp.request_json request = Return data →
  get_data_from_request data = Raise e →
  tgi.GenerateStreamHandler_handle_request
    get_data_from_request backend_handle_request self request s
  = (Raise e, s).
Proof.
  intros Hd Hg. unfold tgi.GenerateStreamHandler_handle_request, bind, lift.
  by rewrite Hd, Hg.
Qed.

Lemma hello_world_GenerateHandler_validation_failure self request data e (s : State) :
  aiohttp.request_json request = Return data →
  get_data_from_request data = Raise e →
  hello_world.GenerateHandler_handle_request
    get_data_from_request backend_handle_request self request s
  = (Raise e, s).
Proof.
  intros Hd Hg. unfold hello_world.GenerateHandler_handle_request, bind, lift.
  by rewrite Hd, Hg.
Qed.

(** After a successful parse every handler is
    [try: return await backend.handle_request(...) except Exception: 500]. *)
Local Abbreviation guarded_backend_call self auth_data payload request :=
  (try_except_Exception
     (backend_handle_request self auth_data payload request)
     (λ _, ret (aiohttp.web_Response 500 None))).

Lemma handle_request_after_parse self request data auth_data payload (s : State) :
  aiohttp.request_json request = Return data →
  get_data_from_request data = Return (auth_data, payload) →
  tgi.GenerateHandler_handle_request
    get_data_from_request backend_handle_request self request s
  = guarded_backend_call self auth_data payload request s
  ∧ tgi.GenerateStreamHandler_handle_request
      get_data_from_request backend_handle_request self request s
    = guarded_backend_call self auth_data payload request s
  ∧ hello_world.GenerateHandler_handle_request
      get_data_from_request backend_handle_request self request s
    = guarded_backend_call self auth_data payload request s
  ∧ hello_world.GenerateStreamHandler_handle_request
      get_data_from_request backend_handle_request self request s
    = guarded_backend_call self auth_data payload request s.
Proof.
  intros Hd Hg.
  unfold tgi.GenerateHandler_handle_request, tgi.GenerateStreamHandler_handle_request,
    hello_world.GenerateHandler_handle_request,
    hello_world.GenerateStreamHandler_handle_request, bind, lift.
  by rewrite Hd, Hg.
Qed.

Lemma guarded_backend_call_raises self auth_data payload request e (s s' : State) :
  backend_handle_request self auth_data payload request s = (Raise e, s') →
  is_Exception e = true →
  guarded_backend_call self auth_data payload request s
  = (Return (aiohttp.web_Response 500 None), s').
Proof.
  intros Hb He. unfold try_except_Exception, ret.
  by rewrite Hb, He.
Qed.

Lemma guarded_backend_call_returns self auth_data payload request r (s s' : State) :
  backend_handle_request self auth_data payload request s = (Return r, s') →
  guarded_backend_call self auth_data payload request s = (Return r, s').
Proof.
  intros Hb. unfold try_except_Exception. by rewrite Hb.
Qed.

End handlers.

(** C5, evaluated on a body that carries the request number but neither
    [inputs] nor [parameters]: [GenerateHandler] of workers/tgi and
    [GenerateStreamHandler] of workers/hello_world answer 422 with the
    field -> reason mapping and do not touch the backend, whereas
    [GenerateStreamHandler] of workers/tgi and [GenerateHandler] of
    workers/hello_world let the [JsonDataException] escape [handle_request]:
    no 422 response is produced there. *)
Theorem C5_validation_failure_escapes_two_of_the_four_handlers :
  ∀ (State : Type)
    (backend_handle_request :
       aiohttp.EndpointHandler → lib_data_types.AuthData → lib_data_types.TgiInputData
       → aiohttp.Request → M (State:=State) aiohttp.Response)
    (s : State),
    let get_data :=
      lib_data_types.get_data_from_request lib_data_types.TgiInputData_from_json_msg in
    let request := aiohttp.mkRequest (Return (JObj {[ "reqnum"%string := JNum 1 ]})) in
    let message : gmap string json :=
      <["inputs"%string := JStr "missing parameter"]>
        (<["parameters"%string := JStr "missing parameter"]> ∅) in
    tgi.GenerateHandler_handle_request get_data backend_handle_request
      tgi.GenerateHandler request s
    = (Return (aiohttp.json_response (JObj message) 422), s)
    ∧ hello_world.GenerateStreamHandler_handle_request get_data backend_handle_request
        hello_world.GenerateStreamHandler request s
      = (Return (aiohttp.json_response (JObj message) 422), s)
    ∧ tgi.GenerateStreamHandler_handle_request get_data backend_handle_request
        tgi.GenerateStreamHandler request s
      = (Raise (JsonDataException message), s)
    ∧ hello_world.GenerateHandler_handle_request get_data backend_handle_request
        hello_world.GenerateHandler request s
      = (Raise (JsonDataException message), s).
Proof.
  intros State backend_handle_request s get_data request message.
  assert (Hg : get_data (JObj {[ "reqnum"%string := JNum 1 ]})
               = Raise (JsonDataException message)) by (vm_compute; reflexivity).
  split; [|split; [|split]].
  - by eapply tgi_GenerateHandler_validation_failure.
  - by eapply hello_world_GenerateStreamHandler_validation_failure.
  - by eapply tgi_GenerateStreamHandler_validation_failure.
  - by eapply hello_world_GenerateHandler_validation_failure.
Qed.

(** ** Streaming ([GenerateStreamHandler.generate_response]) *)

Lemma chunks_written_forward (chunks : list string) :
  aiohttp.chunks_written (aiohttp.forward_chunks chunks) = chunks.
Proof. induction chunks as [|c cs IH]; simpl; [done|]. by rewrite IH. Qed.

Lemma chunks_read_forward (chunks : list string) :
  aiohttp.chunks_read (aiohttp.forward_chunks chunks) = chunks.
Proof. induction chunks as [|c cs IH]; simpl; [done|]. by rewrite IH. Qed.



Lemma yielded_lines (lines : list string) :
  tgi_backend.yielded
    (flat_map (λ byte_payload, [tgi_backend.yield byte_payload; tgi_backend.yield nl]) lines)
  = flat_map (λ line, [line; nl]) lines.
Proof.
  induction lines as [|l ls IH]; [done|].
  change (l :: nl :: tgi_backend.yielded
            (flat_map (λ byte_payload,
                         [tgi_backend.yield byte_payload; tgi_backend.yield nl]) ls)
          = l :: nl :: flat_map (λ line, [line; nl]) ls).
  by rewrite IH.
Qed.








(** An upstream body that breaks off after one line, and a client that goes
    away at the second write: what has been received is written, the
    exception leaves the transform and no [write_eof] happens. *)
Example stream_breaks_off_upstream_or_at_the_client :
  aiohttp.stream_generate_response (aiohttp.mkRequest (Return JNull))
    (aiohttp.mkClientResponse 200 (Raise (Exception "not JSON")) ["data: a" +:+ nl]
       (Some (Exception "ClientPayloadError")))
  = ([aiohttp.prepare "text/event-stream";
      aiohttp.read ("data: a" +:+ nl); aiohttp.write ("data: a" +:+ nl)],
     Raise (Exception "ClientPayloadError"))
  ∧ aiohttp.with_client (Some (2%nat, Exception "ConnectionResetError"))
      (aiohttp.stream_generate_response (aiohttp.mkRequest (Return JNull))
         (aiohttp.mkClientResponse 200 (Raise (Exception "not JSON"))
            ["data: a" +:+ nl; nl] None))
    = ([aiohttp.prepare "text/event-stream";
        aiohttp.read ("data: a" +:+ nl); aiohttp.write ("data: a" +:+ nl);
        aiohttp.read nl],
       Raise (Exception "ConnectionResetError")).
Proof. split; reflexivity. Qed.


(** ** Upstream status codes other than 200 *)

(** The two response transforms on a non-200 answer: the same status, no body
    read, nothing streamed. *)
Lemma json_generate_response_non_200 request response :
  aiohttp.status response ≠ 200 →
  aiohttp.json_generate_response request response
  = ([], Return (aiohttp.web_Response (aiohttp.status response) None)).
Proof.
  intros Hst. unfold aiohttp.json_generate_response.
  destruct (Z.eqb_spec (aiohttp.status response) 200); [done|done].
Qed.

Lemma stream_generate_response_non_200 request response :
  aiohttp.status response ≠ 200 →
  aiohttp.stream_generate_response request response
  = ([], Return (aiohttp.web_Response (aiohttp.status response) None)).
Proof.
  intros Hst. unfold aiohttp.stream_generate_response.
  destruct (Z.eqb_spec (aiohttp.status response) 200); [done|done].
Qed.

(** C7, as amended: every aiohttp endpoint handler answers an upstream status
    other than 200 with [web.Response(status=code)], the same code, without
    reading the JSON body and without any stream event; the Flask proxy's
    [health_handler], [info_handler] and [metrics_handler] return the code as
    well, while its [generate_stream] only refrains from yielding: the items
    are empty and the [Response] keeps its default status 200. *)
Theorem C7_endpoint_handlers_pass_a_non_200_status_through :
  ∀ (request : aiohttp.Request) (response : aiohttp.ClientResponse)
    (inputs parameters : json) (upstream : tgi_backend.requests_Response),
    aiohttp.status response ≠ 200 →
    tgi_backend.status_code upstream ≠ 200 →
    (∀ handler, handler ∈ endpoint_handlers →
       aiohttp.generate_response handler request response
       = ([], Return (aiohttp.web_Response (aiohttp.status response) None)))
    ∧ tgi_backend.health_handler (Return upstream)
      = Return (tgi_backend.status_code upstream, None)
    ∧ tgi_backend.info_handler (Return upstream)
      = Return (tgi_backend.status_code upstream, None)
    ∧ tgi_backend.metrics_handler (Return upstream)
      = Return (tgi_backend.status_code upstream, None)
    ∧ tgi_backend.yielded (tgi_backend.hf_tgi_wrapper inputs parameters (Return upstream)).1 = []
    ∧ tgi_backend.generate_stream
        (<["inputs"%string := inputs]> (<["parameters"%string := parameters]> ∅))
        (Return upstream)
      = (Return (tgi_backend.mkFlaskResponse 200 []),
         (tgi_backend.hf_tgi_wrapper inputs parameters (Return upstream)).1,
         None).
Proof.
  intros request response inputs parameters upstream Hst Hup.
  assert (Hw : tgi_backend.hf_tgi_wrapper inputs parameters (Return upstream)
               = ([tgi_backend.start_req inputs parameters;
                   tgi_backend.post ("http://" +:+ tgi_backend.MODEL_SERVER +:+ "/generate_stream")
                     (<["inputs"%string := inputs]> (<["parameters"%string := parameters]> ∅));
                   tgi_backend.finish_req inputs parameters], None)).
  { unfold tgi_backend.hf_tgi_wrapper, tgi_backend.hf_tgi_try.
    destruct (Z.eqb_spec (tgi_backend.status_code upstream) 200); [done|done]. }
  split; [|split; [|split; [|split; [|split]]]].
  - intros handler Hin. unfold endpoint_handlers in Hin.
    repeat (apply elem_of_cons in Hin as [->|Hin]);
      try (by apply json_generate_response_non_200);
      try (by apply stream_generate_response_non_200).
    by apply elem_of_nil in Hin.
  - unfold tgi_backend.health_handler.
    destruct (Z.eqb_spec (tgi_backend.status_code upstream) 200); [done|done].
  - unfold tgi_backend.info_handler.
    destruct (Z.eqb_spec (tgi_backend.status_code upstream) 200); [done|done].
  - unfold tgi_backend.metrics_handler, tgi_backend.info_handler.
    destruct (Z.eqb_spec (tgi_backend.status_code upstream) 200); [done|done].
  - by rewrite Hw.
  - unfold tgi_backend.generate_stream.
    rewrite lookup_insert_eq, lookup_insert_ne, lookup_insert_eq by done.
    by rewrite Hw.
Qed.

Lemma C7_endpoint_handlers_pass_non_200_witness :
  aiohttp.generate_response whisper.AsrHandler (aiohttp.mkRequest (Return JNull))
    (aiohttp.mkClientResponse 404 (Return JNull) [] None)
  = ([], Return (aiohttp.web_Response 404 None)).
Proof.
  refine (proj1 (C7_endpoint_handlers_pass_a_non_200_status_through
            (aiohttp.mkRequest (Return JNull))
            (aiohttp.mkClientResponse 404 (Return JNull) [] None)
            JNull JNull (tgi_backend.mkResponse 404 "" [] None) _ _)
            whisper.AsrHandler _).
  - simpl. lia.
  - simpl. lia.
  - unfold endpoint_handlers. apply elem_of_cons. by left.
Defined.

(** C7 as stated fails on the Flask proxy: an upstream 404 on
    [/generate_stream] reaches the client as an empty body under status 200. *)
Lemma C7_counterexample_flask_proxy_answers_200_for_upstream_404 :
  tgi_backend.generate_stream
    (<["inputs"%string := JStr "hi"]> (<["parameters"%string := JObj ∅]> ∅))
    (Return (tgi_backend.mkResponse 404 "Not Found" ["Not Found"%string] None))
  = (Return (tgi_backend.mkFlaskResponse 200 []),
     [tgi_backend.start_req (JStr "hi") (JObj ∅);
      tgi_backend.post "http://127.0.0.1:5001/generate_stream"
        (<["inputs"%string := JStr "hi"]> (<["parameters"%string := JObj ∅]> ∅));
      tgi_backend.finish_req (JStr "hi") (JObj ∅)],
     None)
  ∧ tgi_backend.status (tgi_backend.mkFlaskResponse 200 []) ≠ 404.
Proof. split; [vm_compute; reflexivity|discriminate]. Qed.

(** ** Upstream transport failure *)

(** What the Flask proxy's generator does when [requests.post] raises a
    [RequestException]: the sample is opened, the call is made, the exception
    is swallowed, nothing is yielded and [finish_req] is not reached. *)
Lemma hf_tgi_wrapper_transport_failure (inputs parameters : json) (msg : string) :
  tgi_backend.hf_tgi_wrapper inputs parameters (Raise (RequestException msg))
  = ([tgi_backend.start_req inputs parameters;
      tgi_backend.post "http://127.0.0.1:5001/generate_stream"
        (<["inputs"%string := inputs]> (<["parameters"%string := parameters]> ∅))],
     None).
Proof. reflexivity. Qed.

(** The items of the generator as events. *)
Lemma yielded_lines_as_items (lines : list string) :
  flat_map (λ byte_payload, [tgi_backend.yield byte_payload; tgi_backend.yield nl]) lines
  = tgi_backend.yield <$> flat_map (λ line, [line; nl]) lines.
Proof. induction lines as [|l ls IH]; [done|]. cbn. by rewrite IH. Qed.

(** What the generator does when every item is taken: the sample is opened,
    the call is made, the items are yielded, and [finish_req] follows exactly
    when the upstream lets the [try] block run to its end. *)
Lemma hf_tgi_wrapper_events (inputs parameters : json)
    (upstream : result tgi_backend.requests_Response) :
  ∃ (items : list string) (fin : list tgi_backend.event),
    (tgi_backend.hf_tgi_wrapper inputs parameters upstream).1
    = tgi_backend.start_req inputs parameters
      :: tgi_backend.post "http://127.0.0.1:5001/generate_stream"
           (<["inputs"%string := inputs]> (<["parameters"%string := parameters]> ∅))
      :: (tgi_backend.yield <$> items) ++ fin
    ∧ (fin = [tgi_backend.finish_req inputs parameters]
       ∧ try_block_completes upstream
       ∧ (tgi_backend.hf_tgi_wrapper inputs parameters upstream).2 = None
       ∨ fin = [] ∧ ¬ try_block_completes upstream).
Proof.
  unfold tgi_backend.hf_tgi_wrapper, tgi_backend.hf_tgi_try.
  destruct upstream as [response|e]; cbn [try_block_completes].
  - destruct (Z.eqb_spec (tgi_backend.status_code response) 200) as [Hst|Hst].
    + exists (flat_map (λ line, [line; nl]) (tgi_backend.iter_lines response)).
      rewrite yielded_lines_as_items.
      destruct (tgi_backend.iter_raises response) as [e|]; cbn [fst snd].
      * exists []. rewrite app_nil_r. split; [reflexivity|]. right.
        split; [done|]. intros [?|?]; done.
      * eexists. split; [reflexivity|]. left. split; [done|]. split; [by right|done].
    + exists [], [tgi_backend.finish_req inputs parameters]. split; [reflexivity|].
      left. split; [done|]. split; [by left|done].
  - exists [], []. split; [reflexivity|]. right. split; [done|]. by intros [].
Qed.

(** The state a guarded call ends in is the state of the call. *)
Lemma try_except_Exception_state {State A : Type} (m : M (State:=State) A) (r : A)
    (s : State) :
  (try_except_Exception m (λ _, ret r) s).2 = (m s).2.
Proof.
  unfold try_except_Exception, ret.
  destruct (m s) as [[a|e] s']; [done|]. by destruct (is_Exception e).
Qed.

(** In [Ready] the pipeline issues the upstream call, whatever comes of it,
    and leaves the Health State alone. *)
Lemma handle_request_ready_forwards {AuthData Payload : Type}
    (server : string → gmap string json → result aiohttp.ClientResponse)
    (count_workload : Payload → Z) (generate_payload_json : Payload → gmap string json)
    (handler : aiohttp.EndpointHandler) (auth_data : AuthData) (payload : Payload)
    (request : aiohttp.Request) (b : lib_backend.Backend) :
  lib_backend.health b = lib_backend.Ready →
  lib_backend.upstream_calls
    (lib_backend.handle_request server count_workload generate_payload_json
       handler auth_data payload request b).2
  = lib_backend.upstream_calls b
      ++ [(aiohttp.endpoint handler, generate_payload_json payload)]
  ∧ lib_backend.health
      (lib_backend.handle_request server count_workload generate_payload_json
         handler auth_data payload request b).2
    = lib_backend.health b.
Proof.
  intros Hh. unfold lib_backend.handle_request. rewrite Hh.
  destruct (server (aiohttp.endpoint handler) (generate_payload_json payload))
    as [response|e]; [|done].
  by destruct (aiohttp.generate_response handler request response) as [written answer].
Qed.

(** C6, as amended. The inference server is unreachable while a parsed request
    is forwarded by a [Ready] worker whose [backend.handle_request] is the
    pipeline of section 4.4. Each of the four aiohttp [handle_request] methods,
    and the route [backend.create_handler] builds (whisper's [/asr]), answers
    [web.Response(status=500)] and raises nothing; the Health State is
    unchanged, the call was issued, the sample is marked failed and nothing
    was written to the client; the next request is forwarded to the inference
    server again, in an unchanged Health State. Whatever
    [backend.handle_request] is, an [Exception] it raises is answered with 500
    by the four methods, which leave the backend as the call left it. The
    Flask proxy's [health_handler], [info_handler] and [metrics_handler]
    return 500 on a [RequestException]; its [generate_stream] swallows the
    exception and makes the upstream call again for the next request, but the
    client gets an empty body under the default status 200, not a 500. *)
Theorem C6_handlers_answer_500_on_upstream_transport_failure :
  ∀ (AuthData Payload : Type)
    (server : string → gmap string json → result aiohttp.ClientResponse)
    (count_workload : Payload → Z)
    (generate_payload_json : Payload → gmap string json)
    (get_data_from_request : json → result (AuthData * Payload))
    (self : aiohttp.EndpointHandler) (request next : aiohttp.Request)
    (data data' : json) (auth_data auth_data' : AuthData) (payload payload' : Payload)
    (e : exn) (b : lib_backend.Backend) (inputs parameters : json) (msg : string),
    aiohttp.request_json request = Return data →
    get_data_from_request data = Return (auth_data, payload) →
    lib_backend.health b = lib_backend.Ready →
    server (aiohttp.endpoint self) (generate_payload_json payload) = Raise e →
    aiohttp.request_json next = Return data' →
    get_data_from_request data' = Return (auth_data', payload') →
    let backend_handle_request :=
      lib_backend.handle_request server count_workload generate_payload_json in
    let create_handler :=
      lib_backend.create_handler server count_workload generate_payload_json
        get_data_from_request in
    let failed :=
      lib_backend.mkBackend
        (lib_backend.health b)
        (lib_backend.samples b
           ++ [lib_backend.mkSample (count_workload payload) (Some false)])
        (lib_backend.upstream_calls b
           ++ [(aiohttp.endpoint self, generate_payload_json payload)])
        (lib_backend.client b) in
    let answer := (Return (aiohttp.web_Response 500 None), failed) in
    let forwarded (run : result aiohttp.Response * lib_backend.Backend) :=
      lib_backend.upstream_calls run.2
      = lib_backend.upstream_calls failed
          ++ [(aiohttp.endpoint self, generate_payload_json payload')]
      ∧ lib_backend.health run.2 = lib_backend.health b in
    (tgi.GenerateHandler_handle_request
       get_data_from_request backend_handle_request self request b = answer
     ∧ tgi.GenerateStreamHandler_handle_request
         get_data_from_request backend_handle_request self request b = answer
     ∧ hello_world.GenerateHandler_handle_request
         get_data_from_request backend_handle_request self request b = answer
     ∧ hello_world.GenerateStreamHandler_handle_request
         get_data_from_request backend_handle_request self request b = answer
     ∧ create_handler self request b = answer)
    ∧ lib_backend.health failed = lib_backend.health b
    ∧ (forwarded (tgi.GenerateHandler_handle_request
                    get_data_from_request backend_handle_request self next failed)
       ∧ forwarded (tgi.GenerateStreamHandler_handle_request
                      get_data_from_request backend_handle_request self next failed)
       ∧ forwarded (hello_world.GenerateHandler_handle_request
                      get_data_from_request backend_handle_request self next failed)
       ∧ forwarded (hello_world.GenerateStreamHandler_handle_request
                      get_data_from_request backend_handle_request self next failed)
       ∧ forwarded (create_handler self next failed))
    ∧ (∀ (raising : aiohttp.EndpointHandler → AuthData → Payload → aiohttp.Request
                    → M (State:=lib_backend.Backend) aiohttp.Response)
         (e' : exn) (b1 b2 : lib_backend.Backend),
         raising self auth_data payload request b1 = (Raise e', b2) →
         is_Exception e' = true →
         tgi.GenerateHandler_handle_request get_data_from_request raising self request b1
         = (Return (aiohttp.web_Response 500 None), b2)
         ∧ tgi.GenerateStreamHandler_handle_request
             get_data_from_request raising self request b1
           = (Return (aiohttp.web_Response 500 None), b2)
         ∧ hello_world.GenerateHandler_handle_request
             get_data_from_request raising self request b1
           = (Return (aiohttp.web_Response 500 None), b2)
         ∧ hello_world.GenerateStreamHandler_handle_request
             get_data_from_request raising self request b1
           = (Return (aiohttp.web_Response 500 None), b2))
    ∧ tgi_backend.health_handler (Raise (RequestException msg)) = Return (500, None)
    ∧ tgi_backend.info_handler (Raise (RequestException msg)) = Return (500, None)
    ∧ tgi_backend.metrics_handler (Raise (RequestException msg)) = Return (500, None)
    ∧ tgi_backend.generate_stream
        (<["inputs"%string := inputs]> (<["parameters"%string := parameters]> ∅))
        (Raise (RequestException msg))
      = (Return (tgi_backend.mkFlaskResponse 200 []),
         [tgi_backend.start_req inputs parameters;
          tgi_backend.post "http://127.0.0.1:5001/generate_stream"
            (<["inputs"%string := inputs]> (<["parameters"%string := parameters]> ∅))],
         None)
    ∧ (∀ (inputs' parameters' : json) (upstream : result tgi_backend.requests_Response),
         ∃ rest,
           (tgi_backend.generate_stream
              (<["inputs"%string := inputs']> (<["parameters"%string := parameters']> ∅))
              upstream).1.2
           = tgi_backend.start_req inputs' parameters'
             :: tgi_backend.post "http://127.0.0.1:5001/generate_stream"
                  (<["inputs"%string := inputs']>
                     (<["parameters"%string := parameters']> ∅))
             :: rest).
Proof.
  intros AuthData Payload server count_workload generate_payload_json get_data
    self request next data data' auth_data auth_data' payload payload' e b
    inputs parameters msg Hd Hg Hh Hs Hd' Hg'
    backend create_handler failed answer forwarded.
  assert (backend self auth_data payload request b = answer) as Hb.
  { subst backend answer failed. unfold lib_backend.handle_request. by rewrite Hh, Hs. }
  assert (lib_backend.health failed = lib_backend.Ready) as Hh' by exact Hh.
  assert (forwarded (backend self auth_data' payload' next failed)) as Hnext.
  { subst forwarded backend. cbv beta.
    destruct (handle_request_ready_forwards server count_workload generate_payload_json
                self auth_data' payload' next failed Hh') as [Hcalls Hhealth].
    split; [exact Hcalls|]. by rewrite Hhealth. }
  assert (∀ run : result aiohttp.Response * lib_backend.Backend,
            run.2 = (backend self auth_data' payload' next failed).2 → forwarded run)
    as Hstate.
  { intros run Hrun. subst forwarded. cbv beta in Hnext |- *. by rewrite Hrun. }
  split; [|split; [|split; [|split; [|split; [|split; [|split; [|split]]]]]]].
  - pose proof (handle_request_after_parse get_data backend self request data
                  auth_data payload b Hd Hg) as (H1 & H2 & H3 & H4).
    pose proof (guarded_backend_call_returns backend self auth_data payload request
                  _ b failed Hb) as Hr.
    rewrite H1, H2, H3, H4.
    split; [exact Hr|]. split; [exact Hr|]. split; [exact Hr|]. split; [exact Hr|].
    subst create_handler. unfold lib_backend.create_handler, bind, lift.
    rewrite Hd, Hg. exact Hb.
  - reflexivity.
  - pose proof (handle_request_after_parse get_data backend self next data'
                  auth_data' payload' failed Hd' Hg') as (H1 & H2 & H3 & H4).
    rewrite H1, H2, H3, H4.
    split; [apply Hstate, try_except_Exception_state|].
    split; [apply Hstate, try_except_Exception_state|].
    split; [apply Hstate, try_except_Exception_state|].
    split; [apply Hstate, try_except_Exception_state|].
    apply Hstate. subst create_handler.
    unfold lib_backend.create_handler, bind, lift. by rewrite Hd', Hg'.
  - intros raising e' b1 b2 Hraise He'.
    pose proof (handle_request_after_parse get_data raising self request data
                  auth_data payload b1 Hd Hg) as (H1 & H2 & H3 & H4).
    pose proof (guarded_backend_call_raises raising self auth_data payload request
                  e' b1 b2 Hraise He') as Hr.
    rewrite H1, H2, H3, H4. by rewrite Hr.
  - reflexivity.
  - reflexivity.
  - reflexivity.
  - unfold tgi_backend.generate_stream.
    rewrite lookup_insert_eq, lookup_insert_ne, lookup_insert_eq by done.
    by rewrite hf_tgi_wrapper_transport_failure.
  - intros inputs' parameters' upstream.
    destruct (hf_tgi_wrapper_events inputs' parameters' upstream)
      as (items & fin & Hrun & _).
    unfold tgi_backend.generate_stream.
    rewrite lookup_insert_eq, lookup_insert_ne, lookup_insert_eq by done.
    destruct (tgi_backend.hf_tgi_wrapper inputs' parameters' upstream)
      as [events raised].
    cbn [fst snd] in Hrun |- *. rewrite Hrun. by eexists.
Qed.

Lemma C6_handlers_answer_500_witness :
  let get_data := lib_data_types.get_data_from_request whisper.from_json_msg in
  let server : string → gmap string json → result aiohttp.ClientResponse :=
    λ _ _, Raise (Exception "Cannot connect to host 0.0.0.0:9000") in
  let body : json :=
    JObj (<["reqnum"%string := JNum 1]> (<["audio_file"%string := JStr "a.mp3"]> ∅)) in
  lib_backend.create_handler server whisper.count_workload
    whisper.AsrHandler_generate_payload_json get_data
    whisper.AsrHandler (aiohttp.mkRequest (Return body))
    (lib_backend.mkBackend lib_backend.Ready [] [] [])
  = (Return (aiohttp.web_Response 500 None),
     lib_backend.mkBackend lib_backend.Ready
       [lib_backend.mkSample 11 (Some false)]
       [("/asr"%string, {[ "audio_file"%string := JStr "a.mp3" ]})] []).
Proof.
  intros get_data server body.
  refine (proj2 (proj2 (proj2 (proj2 (proj1
            (C6_handlers_answer_500_on_upstream_transport_failure
               lib_data_types.AuthData whisper.InputData
               server whisper.count_workload whisper.AsrHandler_generate_payload_json
               get_data whisper.AsrHandler
               (aiohttp.mkRequest (Return body)) (aiohttp.mkRequest (Return body))
               body body
               (lib_data_types.mkAuthData (JNum 1)) (lib_data_types.mkAuthData (JNum 1))
               (whisper.mkInputData (JStr "a.mp3")) (whisper.mkInputData (JStr "a.mp3"))
               (Exception "Cannot connect to host 0.0.0.0:9000")
               (lib_backend.mkBackend lib_backend.Ready [] [] [])
               JNull JNull "" _ _ _ _ _ _)))))).
  - reflexivity.
  - vm_compute. reflexivity.
  - reflexivity.
  - reflexivity.
  - reflexivity.
  - vm_compute. reflexivity.
Defined.

(** C6 as stated fails on the Flask proxy: with the model server unreachable,
    [generate_stream] hands Flask a response of status 200 with no items, not
    a 500. *)
Lemma C6_counterexample_flask_proxy_answers_200_when_unreachable :
  tgi_backend.generate_stream
    (<["inputs"%string := JStr "hi"]> (<["parameters"%string := JObj ∅]> ∅))
    (Raise (RequestException "Connection refused"))
  = (Return (tgi_backend.mkFlaskResponse 200 []),
     [tgi_backend.start_req (JStr "hi") (JObj ∅);
      tgi_backend.post "http://127.0.0.1:5001/generate_stream"
        (<["inputs"%string := JStr "hi"]> (<["parameters"%string := JObj ∅]> ∅))],
     None)
  ∧ tgi_backend.status (tgi_backend.mkFlaskResponse 200 []) ≠ 500.
Proof. split; [vm_compute; reflexivity|discriminate]. Qed.

(** ** Workload samples of the Flask proxy *)

(** Yielded items open and close no sample. *)
Lemma samples_of_yielded_lines (lines : list string) :
  tgi_backend.samples_started
    (flat_map (λ byte_payload, [tgi_backend.yield byte_payload; tgi_backend.yield nl]) lines)
  = 0%nat
  ∧ tgi_backend.samples_finished
      (flat_map (λ byte_payload, [tgi_backend.yield byte_payload; tgi_backend.yield nl]) lines)
    = 0%nat.
Proof. induction lines as [|l ls IH]; [done|]. exact IH. Qed.

Lemma samples_finished_app (l1 l2 : list tgi_backend.event) :
  tgi_backend.samples_finished (l1 ++ l2)
  = (tgi_backend.samples_finished l1 + tgi_backend.samples_finished l2)%nat.
Proof. unfold tgi_backend.samples_finished. by rewrite omap_app, length_app. Qed.

Lemma samples_started_app (l1 l2 : list tgi_backend.event) :
  tgi_backend.samples_started (l1 ++ l2)
  = (tgi_backend.samples_started l1 + tgi_backend.samples_started l2)%nat.
Proof. unfold tgi_backend.samples_started. by rewrite omap_app, length_app. Qed.

(** The generator with every item taken: when the model server answers and
    the body is read to its end, the sample is opened before the call and
    closed once, after the last item. *)
Lemma hf_tgi_wrapper_run_to_the_end_closes_the_sample
    (inputs parameters : json) (response : tgi_backend.requests_Response) :
  tgi_backend.iter_raises response = None →
  ∃ items,
    (tgi_backend.hf_tgi_wrapper inputs parameters (Return response)).1
    = [tgi_backend.start_req inputs parameters;
       tgi_backend.post "http://127.0.0.1:5001/generate_stream"
         (<["inputs"%string := inputs]> (<["parameters"%string := parameters]> ∅))]
        ++ items ++ [tgi_backend.finish_req inputs parameters]
    ∧ tgi_backend.samples_started items = 0%nat
    ∧ tgi_backend.samples_finished items = 0%nat
    ∧ tgi_backend.samples_started
        (tgi_backend.hf_tgi_wrapper inputs parameters (Return response)).1 = 1%nat
    ∧ tgi_backend.samples_finished
        (tgi_backend.hf_tgi_wrapper inputs parameters (Return response)).1 = 1%nat.
Proof.
  intros Hraises.
  unfold tgi_backend.hf_tgi_wrapper, tgi_backend.hf_tgi_try.
  destruct (tgi_backend.status_code response =? 200).
  - rewrite Hraises. cbn [fst].
    destruct (samples_of_yielded_lines (tgi_backend.iter_lines response)) as [Hs Hf].
    eexists. split; [reflexivity|]. split; [exact Hs|]. split; [exact Hf|].
    split.
    + change (S (tgi_backend.samples_started
                   (flat_map (λ byte_payload,
                                [tgi_backend.yield byte_payload; tgi_backend.yield nl])
                      (tgi_backend.iter_lines response)
                    ++ [tgi_backend.finish_req inputs parameters])) = 1%nat).
      by rewrite samples_started_app, Hs.
    + change (tgi_backend.samples_finished
                (flat_map (λ byte_payload,
                             [tgi_backend.yield byte_payload; tgi_backend.yield nl])
                   (tgi_backend.iter_lines response)
                 ++ [tgi_backend.finish_req inputs parameters]) = 1%nat).
      by rewrite samples_finished_app, Hf.
  - exists []. done.
Qed.

(** C8, evaluated where the code breaks it: when [requests.post] raises a
    [RequestException] (connection refused, timeout), or the body iteration
    raises one after some lines, [hf_tgi_wrapper] has opened the sample with
    [start_req] before the call and swallows the exception without ever
    calling [finish_req]: one sample started, none finished. *)
Theorem C8_sample_is_left_open_on_transport_failure :
  ∀ (inputs parameters : json) (msg body : string) (lines : list string),
    let refused := tgi_backend.hf_tgi_wrapper inputs parameters (Raise (RequestException msg)) in
    let broken :=
      tgi_backend.hf_tgi_wrapper inputs parameters
        (Return (tgi_backend.mkResponse 200 body lines (Some (RequestException msg)))) in
    refused
    = ([tgi_backend.start_req inputs parameters;
        tgi_backend.post "http://127.0.0.1:5001/generate_stream"
          (<["inputs"%string := inputs]> (<["parameters"%string := parameters]> ∅))],
       None)
    ∧ tgi_backend.samples_started refused.1 = 1%nat
    ∧ tgi_backend.samples_finished refused.1 = 0%nat
    ∧ broken.2 = None
    ∧ tgi_backend.samples_started broken.1 = 1%nat
    ∧ tgi_backend.samples_finished broken.1 = 0%nat.
Proof.
  intros inputs parameters msg body lines refused broken. subst refused broken.
  split; [reflexivity|]. split; [reflexivity|]. split; [reflexivity|].
  split; [reflexivity|].
  destruct (samples_of_yielded_lines lines) as [Hs Hf].
  split.
  - change (S (tgi_backend.samples_started
                 (flat_map (λ byte_payload,
                              [tgi_backend.yield byte_payload; tgi_backend.yield nl]) lines))
            = 1%nat).
    by rewrite Hs.
  - change (tgi_backend.samples_finished
              (flat_map (λ byte_payload,
                           [tgi_backend.yield byte_payload; tgi_backend.yield nl]) lines)
            = 0%nat).
    exact Hf.
Qed.

(** ** The readiness monitor and the crashed backend *)

Lemma prefix_append (marker post : string) :
  String.prefix marker (marker +:+ post) = true.
Proof.
  induction marker as [|a marker IH]; simpl.
  - by destruct post.
  - destruct (Ascii.ascii_dec a a); [exact IH|done].
Qed.

Lemma contains_unfold (marker line : string) :
  lib_backend.contains marker line
  = String.prefix marker line
    || match line with
       | EmptyString => false
       | String _ rest => lib_backend.contains marker rest
       end.
Proof. by destruct line. Qed.

Lemma contains_append (marker pre post : string) :
  lib_backend.contains marker (pre +:+ marker +:+ post) = true.
Proof.
  induction pre as [|a pre IH].
  - rewrite contains_unfold.
    change (EmptyString +:+ marker +:+ post) with (marker +:+ post).
    by rewrite prefix_append.
  - rewrite contains_unfold.
    change (String a pre +:+ marker +:+ post) with (String a (pre +:+ marker +:+ post)).
    cbv iota. rewrite IH. apply orb_true_r.
Qed.

Lemma apply_action_crashed (action : LogAction) :
  lib_backend.apply_action action lib_backend.Crashed = lib_backend.Crashed.
Proof. by destruct action. Qed.

Lemma on_log_line_crashed (log_actions : list (LogAction * string)) (line : string) :
  lib_backend.on_log_line log_actions lib_backend.Crashed line = lib_backend.Crashed.
Proof.
  unfold lib_backend.on_log_line.
  induction log_actions as [|rule rules IH]; [done|]. cbn [foldl].
  destruct (lib_backend.contains rule.2 line); [|exact IH].
  rewrite apply_action_crashed. exact IH.
Qed.

Lemma on_log_line_error (log_actions : list (LogAction * string))
    (h : lib_backend.HealthState) (marker line : string) :
  (ModelError, marker) ∈ log_actions →
  lib_backend.contains marker line = true →
  lib_backend.on_log_line log_actions h line = lib_backend.Crashed.
Proof.
  intros Hin Hc. unfold lib_backend.on_log_line. revert h.
  induction log_actions as [|rule rules IH]; intros h.
  - by apply elem_of_nil in Hin.
  - cbn [foldl]. apply elem_of_cons in Hin as [<-|Hin].
    + cbn [fst snd]. rewrite Hc. cbn [lib_backend.apply_action].
      apply on_log_line_crashed.
    + by apply IH.
Qed.

Lemma monitor_crashed (log_actions : list (LogAction * string)) (lines : list string) :
  lib_backend.monitor log_actions lib_backend.Crashed lines = lib_backend.Crashed.
Proof.
  unfold lib_backend.monitor. induction lines as [|l ls IH]; [done|].
  cbn [foldl]. by rewrite on_log_line_crashed.
Qed.

Section crashed.
Context {AuthData Payload : Type}.
Variable server : string → gmap string json → result aiohttp.ClientResponse.
Variable count_workload : Payload → Z.
Variable generate_payload_json : Payload → gmap string json.
Variable get_data_from_request : json → result (AuthData * Payload).

(** Step 2 of the pipeline: outside [Ready] nothing is forwarded or recorded. *)
Lemma handle_request_not_ready handler (auth_data : AuthData) (payload : Payload) request
    (b : lib_backend.Backend) :
  lib_backend.health b ≠ lib_backend.Ready →
  lib_backend.handle_request server count_workload generate_payload_json
    handler auth_data payload request b
  = (Return lib_backend.not_ready_response, b).
Proof.
  intros Hh. unfold lib_backend.handle_request.
  by destruct (lib_backend.health b).
Qed.

Lemma create_handler_not_ready handler request (b : lib_backend.Backend) :
  lib_backend.health b ≠ lib_backend.Ready →
  (lib_backend.create_handler server count_workload generate_payload_json
     get_data_from_request handler request b).2 = b.
Proof.
  intros Hh. unfold lib_backend.create_handler, bind, lift.
  destruct (aiohttp.request_json request) as [data|e]; [|done].
  destruct (get_data_from_request data) as [[auth_data payload]|e].
  - by rewrite handle_request_not_ready.
  - by destruct e.
Qed.

Lemma tgi_routes_not_ready path handle request (b : lib_backend.Backend) :
  lib_backend.find_route
    (tgi.routes get_data_from_request
       (lib_backend.handle_request server count_workload generate_payload_json)) path
  = Some handle →
  lib_backend.health b ≠ lib_backend.Ready →
  (handle request b).2 = b.
Proof.
  intros Hr Hh. unfold tgi.routes in Hr. cbn [lib_backend.find_route] in Hr.
  repeat case_decide; simplify_eq.
  - unfold tgi.GenerateHandler_handle_request, bind, lift.
    destruct (aiohttp.request_json request) as [data|e]; [|done].
    destruct (get_data_from_request data) as [[auth_data payload]|e].
    + unfold try_except_Exception. by rewrite handle_request_not_ready.
    + by destruct e.
  - unfold tgi.GenerateStreamHandler_handle_request, bind, lift.
    destruct (aiohttp.request_json request) as [data|e]; [|done].
    destruct (get_data_from_request data) as [[auth_data payload]|e]; [|done].
    unfold try_except_Exception. by rewrite handle_request_not_ready.
Qed.

Lemma hello_world_routes_not_ready path handle request (b : lib_backend.Backend) :
  lib_backend.find_route
    (hello_world.routes get_data_from_request
       (lib_backend.handle_request server count_workload generate_payload_json)) path
  = Some handle →
  lib_backend.health b ≠ lib_backend.Ready →
  (handle request b).2 = b.
Proof.
  intros Hr Hh. unfold hello_world.routes in Hr. cbn [lib_backend.find_route] in Hr.
  repeat case_decide; simplify_eq.
  - unfold hello_world.GenerateHandler_handle_request, bind, lift.
    destruct (aiohttp.request_json request) as [data|e]; [|done].
    destruct (get_data_from_request data) as [[auth_data payload]|e]; [|done].
    unfold try_except_Exception. by rewrite handle_request_not_ready.
  - unfold hello_world.GenerateStreamHandler_handle_request, bind, lift.
    destruct (aiohttp.request_json request) as [data|e]; [|done].
    destruct (get_data_from_request data) as [[auth_data payload]|e].
    + unfold try_except_Exception. by rewrite handle_request_not_ready.
    + by destruct e.
Qed.

End crashed.

Lemma whisper_routes_not_ready {AuthData : Type}
    (server : string → gmap string json → result aiohttp.ClientResponse)
    (get_data_from_request : json → result (AuthData * whisper.InputData))
    path handle request (b : lib_backend.Backend) :
  lib_backend.find_route (whisper.routes server get_data_from_request) path = Some handle →
  lib_backend.health b ≠ lib_backend.Ready →
  (handle request b).2 = b.
Proof.
  intros Hr Hh. unfold whisper.routes in Hr. cbn [lib_backend.find_route] in Hr.
  case_decide; simplify_eq. by apply create_handler_not_ready.
Qed.

(** Once crashed, a worker whose routes fail fast stays as it is, whatever
    log lines and requests follow. *)
Lemma worker_run_crashed (log_actions : list (LogAction * string))
    (routes : list lib_backend.Route) (events : list lib_backend.worker_event)
    (b : lib_backend.Backend) :
  (∀ path handle request b',
     lib_backend.find_route routes path = Some handle →
     lib_backend.health b' ≠ lib_backend.Ready → (handle request b').2 = b') →
  lib_backend.health b = lib_backend.Crashed →
  lib_backend.worker_run log_actions routes b events = b.
Proof.
  intros Hroutes Hb. unfold lib_backend.worker_run.
  induction events as [|ev events IH]; [done|]. cbn [foldl].
  assert (Hstep : lib_backend.worker_step log_actions routes b ev = b).
  { destruct ev as [line|path request]; cbn [lib_backend.worker_step].
    - rewrite Hb, on_log_line_crashed, <- Hb. by destruct b.
    - destruct (lib_backend.find_route routes path) as [handle|] eqn:Hr; [|done].
      eapply Hroutes; [done|]. by rewrite Hb. }
  by rewrite Hstep.
Qed.

(** C3: a log line that contains the marker of a configured [ModelError] rule
    moves the Health State to [Crashed] from any state; from then on whatever
    log lines and requests follow, on the routes of any of the three workers,
    the backend stays exactly as it was (still [Crashed], no further upstream
    call, no further sample, nothing written to a client), and the pipeline
    answers every request with the not-ready response. *)
Theorem C3_crashed_is_terminal_and_requests_fail_fast :
  ∀ (AuthData Payload : Type) (log_actions : list (LogAction * string))
    (marker pre post : string)
    (server : string → gmap string json → result aiohttp.ClientResponse)
    (count_workload : Payload → Z) (generate_payload_json : Payload → gmap string json)
    (get_data_from_request : json → result (AuthData * Payload))
    (whisper_get_data : json → result (AuthData * whisper.InputData))
    (b : lib_backend.Backend),
    (ModelError, marker) ∈ log_actions →
    let line := pre +:+ marker +:+ post in
    let backend_handle_request :=
      lib_backend.handle_request server count_workload generate_payload_json in
    let crashed := lib_backend.worker_step log_actions [] b (lib_backend.LogLine line) in
    lib_backend.health crashed = lib_backend.Crashed
    ∧ lib_backend.upstream_calls crashed = lib_backend.upstream_calls b
    ∧ (∀ lines, lib_backend.monitor log_actions (lib_backend.health crashed) lines
                = lib_backend.Crashed)
    ∧ (∀ routes later,
         routes ∈ [whisper.routes server whisper_get_data;
                   tgi.routes get_data_from_request backend_handle_request;
                   hello_world.routes get_data_from_request backend_handle_request] →
         lib_backend.worker_run log_actions routes crashed later = crashed)
    ∧ (∀ handler auth_data payload request,
         backend_handle_request handler auth_data payload request crashed
         = (Return lib_backend.not_ready_response, crashed)).
Proof.
  intros AuthData Payload log_actions marker pre post server count_workload
    generate_payload_json get_data whisper_get_data b Hin line backend crashed.
  assert (Hc : lib_backend.health crashed = lib_backend.Crashed).
  { subst crashed line. cbn [lib_backend.worker_step lib_backend.health].
    eapply on_log_line_error; [exact Hin|apply contains_append]. }
  split; [exact Hc|]. split; [done|]. split.
  { intros lines. rewrite Hc. apply monitor_crashed. }
  split.
  - intros routes later Hr. apply worker_run_crashed; [|exact Hc].
    intros path handle request b' Hfind Hb'.
    repeat (apply elem_of_cons in Hr as [->|Hr]).
    + by eapply whisper_routes_not_ready.
    + by eapply tgi_routes_not_ready.
    + by eapply hello_world_routes_not_ready.
    + by apply elem_of_nil in Hr.
  - intros handler auth_data payload request. subst backend.
    apply handle_request_not_ready. by rewrite Hc.
Qed.

Lemma C3_crashed_is_terminal_witness :
  let get_data :=
    lib_data_types.get_data_from_request whisper.from_json_msg in
  let server : string → gmap string json → result aiohttp.ClientResponse :=
    λ _ _, Return (aiohttp.mkClientResponse 200 (Return (JStr "text")) [] None) in
  let ready := lib_backend.mkBackend lib_backend.Ready [] [] [] in
  let request :=
    aiohttp.mkRequest
      (Return (JObj (<["reqnum"%string := JNum 2]>
                       (<["audio_file"%string := JStr "a.mp3"]> ∅)))) in
  (ModelError, "CUDA out of memory"%string) ∈ whisper.log_actions
  ∧ lib_backend.worker_run whisper.log_actions (whisper.routes server get_data)
      (lib_backend.worker_step whisper.log_actions [] ready
         (lib_backend.LogLine "RuntimeError: CUDA out of memory. Tried to allocate 2 GiB"))
      [lib_backend.Post "/asr" request;
       lib_backend.LogLine "Application startup complete.";
       lib_backend.Post "/asr" request]
    = lib_backend.mkBackend lib_backend.Crashed [] [] [].
Proof.
  intros get_data server ready request.
  assert (Hrule : (ModelError, "CUDA out of memory"%string) ∈ whisper.log_actions).
  { unfold whisper.log_actions. do 3 (apply elem_of_cons; right).
    apply elem_of_cons. by left. }
  split; [exact Hrule|].
  exact (proj1 (proj2 (proj2 (proj2
    (C3_crashed_is_terminal_and_requests_fail_fast
       lib_data_types.AuthData whisper.InputData whisper.log_actions
       "CUDA out of memory" "RuntimeError: " ". Tried to allocate 2 GiB"
       server whisper.count_workload whisper.AsrHandler_generate_payload_json
       get_data get_data ready Hrule))))
    (whisper.routes server get_data)
    [lib_backend.Post "/asr" request;
     lib_backend.LogLine "Application startup complete.";
     lib_backend.Post "/asr" request]
    (list_elem_of_here _ _)).
Defined.

(** The same worker, while [Ready], does forward the request: the model of the
    pipeline is not one that never calls upstream. *)
Example ready_worker_forwards :
  lib_backend.upstream_calls
    (lib_backend.worker_run whisper.log_actions
       (whisper.routes
          (λ _ _, Return (aiohttp.mkClientResponse 200 (Return (JStr "text")) [] None))
          (lib_data_types.get_data_from_request whisper.from_json_msg))
       (lib_backend.mkBackend lib_backend.Loading [] [] [])
       [lib_backend.LogLine "INFO: Application startup complete.";
        lib_backend.Post "/asr"
          (aiohttp.mkRequest
             (Return (JObj (<["reqnum"%string := JNum 2]>
                              (<["audio_file"%string := JStr "a.mp3"]> ∅)))))])
  = [("/asr"%string, {[ "audio_file"%string := JStr "a.mp3" ]})].
Proof. vm_compute. reflexivity. Qed.

(** ** The concurrency gate in Exclusive mode *)

Lemma replay_app (holder : option nat) (o1 o2 : list lib_backend.gate_output) :
  lib_backend.replay holder (o1 ++ o2)
  = lib_backend.replay holder o1 ≫= λ holder', lib_backend.replay holder' o2.
Proof.
  revert holder. induction o1 as [|o o1 IH]; intros holder; [done|].
  destruct o as [r|r ok]; destruct holder as [r'|]; simpl; try done.
  case_decide; [apply IH|done].
Qed.

(** After a trace that replays, the requests started are those completed plus
    the one still in flight. *)
Lemma replay_started_drained (holder holder' : option nat)
    (out : list lib_backend.gate_output) :
  lib_backend.replay holder out = Some holder' →
  option_list holder ++ lib_backend.started out
  = lib_backend.drained out ++ option_list holder'.
Proof.
  revert holder. induction out as [|o out IH]; intros holder Hr.
  - simpl in Hr. inversion Hr; subst. simpl. by rewrite app_nil_r.
  - destruct o as [r|r ok]; destruct holder as [r'|]; simpl in Hr; try done.
    + apply IH in Hr. simpl in *. exact Hr.
    + case_decide as Heq; [|done]. subst r'. apply IH in Hr. simpl in *.
      by rewrite <- Hr.
Qed.

Lemma remove_singleton (r : nat) : lib_backend.remove r [r] = [].
Proof.
  unfold lib_backend.remove. rewrite filter_cons. by rewrite decide_False by (by intros ?).
Qed.

Lemma exclusive_step (g g' : lib_backend.Gate) (i : lib_backend.gate_input)
    (out : list lib_backend.gate_output) :
  lib_backend.exclusive_inv g →
  lib_backend.step g i = Some (g', out) →
  lib_backend.exclusive_inv g'
  ∧ lib_backend.replay (head (lib_backend.in_flight g)) out
    = Some (head (lib_backend.in_flight g'))
  ∧ lib_backend.started out ++ lib_backend.queue g'
    = lib_backend.queue g ++ lib_backend.submitted [i].
Proof.
  intros (Hmode & Hlen & Hidle) Hstep. unfold lib_backend.step in Hstep.
  destruct g as [m fl q]. simpl in *. subst m.
  destruct i as [r|r ok].
  - destruct fl as [|r0 fl].
    + rewrite (Hidle eq_refl) in *. inversion Hstep; subst.
      repeat split; simpl; try done; try lia.
    + inversion Hstep; subst. repeat split; simpl; try done; try lia.
  - case_decide as Hin; [|done].
    destruct fl as [|r0 [|r1 fl]]; [by apply elem_of_nil in Hin| |simpl in Hlen; lia].
    apply list_elem_of_singleton in Hin as ->.
    rewrite remove_singleton in Hstep.
    destruct q as [|next rest]; inversion Hstep; subst; simpl.
    + repeat split; simpl; try done; try lia. by rewrite decide_True.
    + repeat split; simpl; try done; try lia.
      * by rewrite decide_True.
      * by rewrite app_nil_r.
Qed.

Lemma exclusive_run (inputs : list lib_backend.gate_input) (g g' : lib_backend.Gate)
    (out : list lib_backend.gate_output) :
  lib_backend.exclusive_inv g →
  lib_backend.run g inputs = Some (g', out) →
  lib_backend.exclusive_inv g'
  ∧ lib_backend.replay (head (lib_backend.in_flight g)) out
    = Some (head (lib_backend.in_flight g'))
  ∧ lib_backend.started out ++ lib_backend.queue g'
    = lib_backend.queue g ++ lib_backend.submitted inputs.
Proof.
  revert g out. induction inputs as [|i inputs IH]; intros g out Hinv Hrun.
  - simpl in Hrun. inversion Hrun; subst. simpl. by rewrite app_nil_r.
  - simpl in Hrun.
    destruct (lib_backend.step g i) as [[g1 o1]|] eqn:Hstep; [|done].
    destruct (lib_backend.run g1 inputs) as [[g2 o2]|] eqn:Hrest; [|done].
    inversion Hrun; subst.
    destruct (exclusive_step _ _ _ _ Hinv Hstep) as (Hinv1 & Hrep1 & Hq1).
    destruct (IH _ _ Hinv1 Hrest) as (Hinv2 & Hrep2 & Hq2).
    split; [exact Hinv2|]. split.
    + rewrite replay_app, Hrep1. exact Hrep2.
    + assert (Hsub : lib_backend.submitted (i :: inputs)
                     = lib_backend.submitted [i] ++ lib_backend.submitted inputs).
      { unfold lib_backend.submitted. by rewrite <- omap_app. }
      rewrite Hsub. unfold lib_backend.started in *. rewrite omap_app.
      rewrite <- app_assoc, Hq2, !app_assoc. by rewrite Hq1.
Qed.

Lemma app_cons_unique {A : Type} (x : A) (l1 l2 l1' l2' : list A) :
  NoDup (l1 ++ x :: l2) →
  l1 ++ x :: l2 = l1' ++ x :: l2' →
  l1 = l1'.
Proof.
  revert l1'. induction l1 as [|a l1 IH]; intros l1' Hnd Heq.
  - destruct l1' as [|a' l1']; [done|]. simpl in *. inversion Heq; subst.
    apply NoDup_cons in Hnd as [Hnotin _]. exfalso. apply Hnotin.
    apply elem_of_app. right. by left.
  - destruct l1' as [|a' l1']; simpl in *; inversion Heq; subst.
    + apply NoDup_cons in Hnd as [Hnotin _]. exfalso. apply Hnotin.
      apply elem_of_app. right. by left.
    + apply NoDup_cons in Hnd as [_ Hnd]. f_equal. by eapply IH.
Qed.

Lemma elem_of_drained (r : nat) (out : list lib_backend.gate_output) :
  r ∈ lib_backend.drained out → ∃ ok, lib_backend.Drained r ok ∈ out.
Proof.
  unfold lib_backend.drained. intros Hin.
  apply list_elem_of_omap in Hin as (o & Ho & Hr).
  destruct o as [r'|r' ok]; [done|]. inversion Hr; subst. by exists ok.
Qed.

(** C2: an Exclusive gate, run from empty over any sequence of arrivals and
    completions: after every prefix of what it let happen at most one request
    has started without having completed; calls start in arrival order and
    complete in that order; the call of a request starts only after every
    request that arrived before it has been drained; and a completion, with
    success or failure alike, releases the head of the queue and nobody else. *)
Theorem C2_exclusive_gate_is_single_flight_and_fifo :
  ∀ (inputs : list lib_backend.gate_input) (g : lib_backend.Gate)
    (out : list lib_backend.gate_output),
    lib_backend.run (lib_backend.new_gate lib_backend.Exclusive) inputs = Some (g, out) →
    NoDup (lib_backend.submitted inputs) →
    (∀ o1 o2, out = o1 ++ o2 →
       ∃ flying, lib_backend.started o1 = lib_backend.drained o1 ++ flying
                 ∧ (length flying ≤ 1)%nat)
    ∧ lib_backend.started out ++ lib_backend.queue g = lib_backend.submitted inputs
    ∧ lib_backend.drained out ++ lib_backend.in_flight g = lib_backend.started out
    ∧ (∀ r1 r2 s1 s2 s3 o1 o2,
         lib_backend.submitted inputs = s1 ++ r1 :: s2 ++ r2 :: s3 →
         out = o1 ++ lib_backend.Started r2 :: o2 →
         ∃ ok, lib_backend.Drained r1 ok ∈ o1)
    ∧ (∀ r ok next rest,
         lib_backend.step (lib_backend.mkGate lib_backend.Exclusive [r] (next :: rest))
           (lib_backend.Finish r ok)
         = Some (lib_backend.mkGate lib_backend.Exclusive [next] rest,
                 [lib_backend.Drained r ok; lib_backend.Started next])).
Proof.
  intros inputs g out Hrun Hnd.
  assert (Hinv0 : lib_backend.exclusive_inv (lib_backend.new_gate lib_backend.Exclusive)).
  { repeat split; simpl; try done; lia. }
  destruct (exclusive_run _ _ _ _ Hinv0 Hrun) as ((Hmode & Hlen & Hidle) & Hrep & Hfifo).
  simpl in Hrep, Hfifo.
  split; [|split; [|split; [|split]]].
  - intros o1 o2 ->. rewrite replay_app in Hrep.
    destruct (lib_backend.replay None o1) as [h1|] eqn:H1; [|done].
    apply replay_started_drained in H1. simpl in H1.
    exists (option_list h1). split; [done|]. destruct h1; simpl; lia.
  - exact Hfifo.
  - apply replay_started_drained in Hrep. simpl in Hrep. rewrite Hrep.
    f_equal. destruct (lib_backend.in_flight g) as [|a [|b l]]; simpl in *; try done; lia.
  - intros r1 r2 s1 s2 s3 o1 o2 Hsub ->.
    rewrite replay_app in Hrep.
    destruct (lib_backend.replay None o1) as [h1|] eqn:H1; [|done].
    simpl in Hrep. destruct h1 as [r'|]; [done|].
    apply replay_started_drained in H1. simpl in H1. rewrite app_nil_r in H1.
    unfold lib_backend.started in Hfifo. rewrite omap_app in Hfifo. simpl in Hfifo.
    fold (lib_backend.started o1) in Hfifo. fold (lib_backend.started o2) in Hfifo.
    rewrite Hsub in Hfifo, Hnd.
    rewrite <- app_assoc in Hfifo. simpl in Hfifo.
    assert (Hs1 : s1 ++ r1 :: s2 = lib_backend.started o1).
    { eapply (app_cons_unique r2 (s1 ++ r1 :: s2) s3).
      - by rewrite <- app_assoc.
      - rewrite <- app_assoc. simpl. symmetry. exact Hfifo. }
    apply elem_of_drained. rewrite <- H1, <- Hs1.
    apply elem_of_app. right. by left.
  - intros r ok next rest. unfold lib_backend.step. simpl.
    rewrite decide_True by (by left). by rewrite remove_singleton.
Qed.

Lemma C2_exclusive_gate_witness :
  lib_backend.started
    [lib_backend.Started 1; lib_backend.Drained 1 false;
     lib_backend.Started 2; lib_backend.Drained 2 true]
  ++ []
  = lib_backend.submitted
      [lib_backend.Submit 1; lib_backend.Submit 2;
       lib_backend.Finish 1 false; lib_backend.Finish 2 true].
Proof.
  refine (proj1 (proj2 (C2_exclusive_gate_is_single_flight_and_fifo
    [lib_backend.Submit 1; lib_backend.Submit 2;
     lib_backend.Finish 1 false; lib_backend.Finish 2 true]
    (lib_backend.mkGate lib_backend.Exclusive [] [])
    [lib_backend.Started 1; lib_backend.Drained 1 false;
     lib_backend.Started 2; lib_backend.Drained 2 true] _ _))).
  - vm_compute. reflexivity.
  - change (NoDup [1; 2]%nat). apply NoDup_cons. split; [|apply NoDup_singleton].
    intros Hin. apply list_elem_of_singleton in Hin. discriminate Hin.
Defined.

(** In Parallel mode the same arrivals are all in flight at once. *)
Example parallel_gate_admits_at_once :
  lib_backend.run (lib_backend.new_gate lib_backend.Parallel)
    [lib_backend.Submit 1; lib_backend.Submit 2]
  = Some (lib_backend.mkGate lib_backend.Parallel [1; 2]%nat [],
          [lib_backend.Started 1; lib_backend.Started 2]).
Proof. reflexivity. Qed.

(** ** Further properties of the sources *)

(** The wire form of a payload is read back as the same payload: every
    [InputData] survives [generate_payload_json] followed by [from_json_msg],
    the canonical test instance among them. *)
Theorem from_json_msg_reads_back_generate_payload_json :
  ∀ p : whisper.InputData,
    whisper.from_json_msg (whisper.generate_payload_json p) = Return p
    ∧ whisper.generate_payload_json whisper.for_test
      = {[ "audio_file"%string := JStr "misc/samples_jfk.mp3" ]}.
Proof.
  intros [v]. split; [|reflexivity].
  rewrite whisper_from_json_msg_eq. unfold whisper.generate_payload_json. simpl.
  by rewrite lookup_singleton_eq.
Qed.

(** When [backend.handle_request] returns, each [handle_request] hands its
    answer to the client as it is. *)
Theorem handlers_return_the_backend_answer :
  ∀ (State AuthData Payload : Type)
    (get_data_from_request : json → result (AuthData * Payload))
    (backend_handle_request :
       aiohttp.EndpointHandler → AuthData → Payload → aiohttp.Request
       → M (State:=State) aiohttp.Response)
    (self : aiohttp.EndpointHandler) (request : aiohttp.Request) (data : json)
    (auth_data : AuthData) (payload : Payload) (answer : aiohttp.Response) (s s' : State),
    aiohttp.request_json request = Return data →
    get_data_from_request data = Return (auth_data, payload) →
    backend_handle_request self auth_data payload request s = (Return answer, s') →
    tgi.GenerateHandler_handle_request
      get_data_from_request backend_handle_request self request s = (Return answer, s')
    ∧ tgi.GenerateStreamHandler_handle_request
        get_data_from_request backend_handle_request self request s = (Return answer, s')
    ∧ hello_world.GenerateHandler_handle_request
        get_data_from_request backend_handle_request self request s = (Return answer, s')
    ∧ hello_world.GenerateStreamHandler_handle_request
        get_data_from_request backend_handle_request self request s = (Return answer, s').
Proof.
  intros State AuthData Payload get_data backend self request data auth_data payload
    answer s s' Hd Hg Hb.
  pose proof (handle_request_after_parse get_data backend self request data
                auth_data payload s Hd Hg) as (H1 & H2 & H3 & H4).
  rewrite H1, H2, H3, H4.
  by rewrite (guarded_backend_call_returns backend self auth_data payload request
                answer s s' Hb).
Qed.

Lemma handlers_return_the_backend_answer_witness :
  let get_data :=
    lib_data_types.get_data_from_request lib_data_types.TgiInputData_from_json_msg in
  let server : string → gmap string json → result aiohttp.ClientResponse :=
    λ _ _, Return (aiohttp.mkClientResponse 200 (Return (JStr "generated")) [] None) in
  let backend :=
    lib_backend.handle_request (AuthData:=lib_data_types.AuthData) server
      (λ _ : lib_data_types.TgiInputData, 1)
      (λ p, <["inputs"%string := lib_data_types.inputs p]>
              (<["parameters"%string := lib_data_types.parameters p]> ∅)) in
  let body : json :=
    JObj (<["reqnum"%string := JNum 1]>
            (<["inputs"%string := JStr "hi"]> (<["parameters"%string := JObj ∅]> ∅))) in
  (tgi.GenerateHandler_handle_request get_data backend tgi.GenerateHandler
     (aiohttp.mkRequest (Return body))
     (lib_backend.mkBackend lib_backend.Ready [] [] [])).1
  = Return (aiohttp.json_response (JStr "generated") 200).
Proof.
  intros get_data server backend body.
  refine (f_equal fst (proj1 (handlers_return_the_backend_answer
            lib_backend.Backend lib_data_types.AuthData lib_data_types.TgiInputData
            get_data backend tgi.GenerateHandler
            (aiohttp.mkRequest (Return body)) body
            (lib_data_types.mkAuthData (JNum 1))
            (lib_data_types.mkTgiInputData (JStr "hi") (JObj ∅))
            (aiohttp.json_response (JStr "generated") 200)
            (lib_backend.mkBackend lib_backend.Ready [] [] [])
            (lib_backend.mkBackend lib_backend.Ready
               [lib_backend.mkSample 1 (Some true)]
               [("/generate"%string,
                 <["inputs"%string := JStr "hi"]> (<["parameters"%string := JObj ∅]> ∅))]
               [])
            _ _ _))).
  - reflexivity.
  - vm_compute. reflexivity.
  - vm_compute. reflexivity.
Defined.

(** The pipeline with the model server unreachable for one request and up for
    the next: 500 and a failed sample for the first, the Health State still
    [Ready], and the second request is forwarded and answered. *)
Example unreachable_server_then_served :
  let server : string → gmap string json → result aiohttp.ClientResponse :=
    λ _ body, match body !! "audio_file"%string with
              | Some (JStr "a.mp3") => Raise (Exception "Cannot connect to host")
              | _ => Return (aiohttp.mkClientResponse 200 (Return (JStr "text")) [] None)
              end in
  let post audio :=
    lib_backend.Post "/asr"
      (aiohttp.mkRequest
         (Return (JObj (<["reqnum"%string := JNum 1]>
                          (<["audio_file"%string := JStr audio]> ∅))))) in
  lib_backend.worker_run whisper.log_actions
    (whisper.routes server (lib_data_types.get_data_from_request whisper.from_json_msg))
    (lib_backend.mkBackend lib_backend.Ready [] [] [])
    [post "a.mp3"%string; post "b.mp3"%string]
  = lib_backend.mkBackend lib_backend.Ready
      [lib_backend.mkSample 11 (Some false); lib_backend.mkSample 11 (Some true)]
      [("/asr"%string, {[ "audio_file"%string := JStr "a.mp3" ]});
       ("/asr"%string, {[ "audio_file"%string := JStr "b.mp3" ]})]
      [].
Proof. vm_compute. reflexivity. Qed.

(** ** What escapes [handle_request], and what it leaves alone *)
Section handlers_escape.
Context {State AuthData Payload : Type}.
Variable get_data_from_request : json → result (AuthData * Payload).
Variable backend_handle_request :
  aiohttp.EndpointHandler → AuthData → Payload → aiohttp.Request
  → M (State:=State) aiohttp.Response.

(** A body that [request.json()] cannot read: the exception leaves each of the
    four [handle_request] methods as it is, before the body is parsed or the
    backend is called. *)
Theorem handlers_propagate_an_unreadable_body
    (self : aiohttp.EndpointHandler) (request : aiohttp.Request) (e : exn) (s : State) :
  aiohttp.request_json request = Raise e →
  tgi.GenerateHandler_handle_request
    get_data_from_request backend_handle_request self request s = (Raise e, s)
  ∧ tgi.GenerateStreamHandler_handle_request
      get_data_from_request backend_handle_request self request s = (Raise e, s)
  ∧ hello_world.GenerateHandler_handle_request
      get_data_from_request backend_handle_request self request s = (Raise e, s)
  ∧ hello_world.GenerateStreamHandler_handle_request
      get_data_from_request backend_handle_request self request s = (Raise e, s).
Proof.
  intros Hd.
  unfold tgi.GenerateHandler_handle_request, tgi.GenerateStreamHandler_handle_request,
    hello_world.GenerateHandler_handle_request,
    hello_world.GenerateStreamHandler_handle_request, bind, lift.
  by rewrite Hd.
Qed.

(** The handlers with an [except JsonDataException] clause catch that class
    only: any other exception of [get_data_from_request] leaves all four
    [handle_request] methods unchanged, with the backend untouched. *)
Theorem handlers_propagate_other_parse_errors
    (self : aiohttp.EndpointHandler) (request : aiohttp.Request) (data : json)
    (e : exn) (s : State) :
  aiohttp.request_json request = Return data →
  get_data_from_request data = Raise e →
  (∀ message, e ≠ JsonDataException message) →
  tgi.GenerateHandler_handle_request
    get_data_from_request backend_handle_request self request s = (Raise e, s)
  ∧ tgi.GenerateStreamHandler_handle_request
      get_data_from_request backend_handle_request self request s = (Raise e, s)
  ∧ hello_world.GenerateHandler_handle_request
      get_data_from_request backend_handle_request self request s = (Raise e, s)
  ∧ hello_world.GenerateStreamHandler_handle_request
      get_data_from_request backend_handle_request self request s = (Raise e, s).
Proof.
  intros Hd Hg Hne.
  unfold tgi.GenerateHandler_handle_request, tgi.GenerateStreamHandler_handle_request,
    hello_world.GenerateHandler_handle_request,
    hello_world.GenerateStreamHandler_handle_request, bind, lift.
  rewrite Hd, Hg.
  destruct e as [message| | | | |]; [by destruct (Hne message)|done..].
Qed.

(** [except Exception] does not catch what is no [Exception]: a cancellation
    raised inside [backend.handle_request] is not turned into a 500, it
    leaves the handler, with the backend state as the call left it. *)
Theorem handlers_do_not_catch_a_cancellation
    (self : aiohttp.EndpointHandler) (request : aiohttp.Request) (data : json)
    (auth_data : AuthData) (payload : Payload) (e : exn) (s s' : State) :
  aiohttp.request_json request = Return data →
  get_data_from_request data = Return (auth_data, payload) →
  backend_handle_request self auth_data payload request s = (Raise e, s') →
  is_Exception e = false →
  tgi.GenerateHandler_handle_request
    get_data_from_request backend_handle_request self request s = (Raise e, s')
  ∧ tgi.GenerateStreamHandler_handle_request
      get_data_from_request backend_handle_request self request s = (Raise e, s')
  ∧ hello_world.GenerateHandler_handle_request
      get_data_from_request backend_handle_request self request s = (Raise e, s')
  ∧ hello_world.GenerateStreamHandler_handle_request
      get_data_from_request backend_handle_request self request s = (Raise e, s').
Proof.
  intros Hd Hg Hb He.
  pose proof (handle_request_after_parse get_data_from_request backend_handle_request
                self request data auth_data payload s Hd Hg) as (H1 & H2 & H3 & H4).
  rewrite H1, H2, H3, H4. unfold try_except_Exception. by rewrite Hb, He.
Qed.

(** The state a guarded backend call ends in is the state of the call. *)
Lemma guarded_backend_call_state self (auth_data : AuthData) (payload : Payload)
    request (s : State) :
  (try_except_Exception
     (backend_handle_request self auth_data payload request)
     (λ _, ret (aiohttp.web_Response 500 None)) s).2
  = (backend_handle_request self auth_data payload request s).2.
Proof.
  unfold try_except_Exception, ret.
  destruct (backend_handle_request self auth_data payload request s) as [[a|e] s'];
    [done|]. by destruct (is_Exception e).
Qed.

(** A handler changes the backend only through [backend.handle_request]: for
    every request, the state after [handle_request] is the state before, or
    the state in which one call of [backend.handle_request] on the parsed
    request ended. *)
Theorem handlers_touch_the_backend_only_through_handle_request
    (self : aiohttp.EndpointHandler) (request : aiohttp.Request) (s : State) :
  ∀ handle,
    handle ∈ [tgi.GenerateHandler_handle_request get_data_from_request backend_handle_request;
              tgi.GenerateStreamHandler_handle_request
                get_data_from_request backend_handle_request;
              hello_world.GenerateHandler_handle_request
                get_data_from_request backend_handle_request;
              hello_world.GenerateStreamHandler_handle_request
                get_data_from_request backend_handle_request] →
    (handle self request s).2 = s
    ∨ ∃ data auth_data payload,
        aiohttp.request_json request = Return data
        ∧ get_data_from_request data = Return (auth_data, payload)
        ∧ (handle self request s).2
          = (backend_handle_request self auth_data payload request s).2.
Proof.
  intros handle Hin.
  destruct (aiohttp.request_json request) as [data|e] eqn:Hd.
  - destruct (get_data_from_request data) as [[auth_data payload]|e] eqn:Hg.
    + right. exists data, auth_data, payload. split; [done|]. split; [done|].
      pose proof (handle_request_after_parse get_data_from_request backend_handle_request
                    self request data auth_data payload s Hd Hg) as (H1 & H2 & H3 & H4).
      repeat (apply elem_of_cons in Hin as [->|Hin]);
        [rewrite H1|rewrite H2|rewrite H3|rewrite H4|by apply elem_of_nil in Hin];
        apply guarded_backend_call_state.
    + left.
      repeat (apply elem_of_cons in Hin as [->|Hin]);
        [| | | |by apply elem_of_nil in Hin];
        unfold tgi.GenerateHandler_handle_request,
          tgi.GenerateStreamHandler_handle_request,
          hello_world.GenerateHandler_handle_request,
          hello_world.GenerateStreamHandler_handle_request, bind, lift;
        rewrite Hd, Hg; by destruct e.
  - left.
    repeat (apply elem_of_cons in Hin as [->|Hin]);
      [| | | |by apply elem_of_nil in Hin];
      unfold tgi.GenerateHandler_handle_request,
        tgi.GenerateStreamHandler_handle_request,
        hello_world.GenerateHandler_handle_request,
        hello_world.GenerateStreamHandler_handle_request, bind, lift;
      by rewrite Hd.
Qed.

(** The two handlers of a worker differ on validation failures and nowhere
    else: on every request they return the same answer and state, unless
    [get_data_from_request] raises a [JsonDataException]; and across the two
    workers the handlers are the same, crosswise. *)
Theorem handlers_differ_only_on_validation_failure
    (self : aiohttp.EndpointHandler) (request : aiohttp.Request) (s : State) :
  (tgi.GenerateHandler_handle_request
     get_data_from_request backend_handle_request self request s
   = tgi.GenerateStreamHandler_handle_request
       get_data_from_request backend_handle_request self request s
   ∨ ∃ data message,
       aiohttp.request_json request = Return data
       ∧ get_data_from_request data = Raise (JsonDataException message))
  ∧ hello_world.GenerateStreamHandler_handle_request
      get_data_from_request backend_handle_request self request s
    = tgi.GenerateHandler_handle_request
        get_data_from_request backend_handle_request self request s
  ∧ hello_world.GenerateHandler_handle_request
      get_data_from_request backend_handle_request self request s
    = tgi.GenerateStreamHandler_handle_request
        get_data_from_request backend_handle_request self request s.
Proof.
  split; [|split; reflexivity].
  unfold tgi.GenerateHandler_handle_request, tgi.GenerateStreamHandler_handle_request,
    bind, lift.
  destruct (aiohttp.request_json request) as [data|e]; [|by left].
  destruct (get_data_from_request data) as [[auth_data payload]|e] eqn:Hg; [by left|].
  destruct e as [message| | | | |]; try (by left).
  right. by exists data, message.
Qed.

End handlers_escape.

Lemma handlers_propagate_an_unreadable_body_witness :
  tgi.GenerateHandler_handle_request
    (λ _ : json, Return (tt, tt))
    (λ _ _ _ _ (calls : nat), (Return (aiohttp.web_Response 200 None), S calls))
    tgi.GenerateHandler
    (aiohttp.mkRequest (Raise (Exception "Expecting value: line 1 column 1")))
    0%nat
  = (Raise (Exception "Expecting value: line 1 column 1"), 0%nat).
Proof.
  exact (proj1 (handlers_propagate_an_unreadable_body
                  (λ _ : json, Return (tt, tt))
                  (λ _ _ _ _ (calls : nat), (Return (aiohttp.web_Response 200 None), S calls))
                  tgi.GenerateHandler
                  (aiohttp.mkRequest (Raise (Exception "Expecting value: line 1 column 1")))
                  (Exception "Expecting value: line 1 column 1") 0%nat eq_refl)).
Defined.

Lemma handlers_propagate_other_parse_errors_witness :
  tgi.GenerateHandler_handle_request
    (lib_data_types.get_data_from_request lib_data_types.TgiInputData_from_json_msg)
    (λ _ _ _ _ (calls : nat), (Return (aiohttp.web_Response 200 None), S calls))
    tgi.GenerateHandler
    (aiohttp.mkRequest (Return (JArr [])))
    0%nat
  = (Raise (TypeError "the request body is not an object"), 0%nat).
Proof.
  refine (proj1 (handlers_propagate_other_parse_errors
                   (lib_data_types.get_data_from_request
                      lib_data_types.TgiInputData_from_json_msg)
                   (λ _ _ _ _ (calls : nat), (Return (aiohttp.web_Response 200 None), S calls))
                   tgi.GenerateHandler
                   (aiohttp.mkRequest (Return (JArr []))) (JArr [])
                   (TypeError "the request body is not an object") 0%nat
                   eq_refl eq_refl _)).
  intros message. discriminate.
Defined.

Lemma handlers_do_not_catch_a_cancellation_witness :
  hello_world.GenerateStreamHandler_handle_request
    (λ _ : json, Return (tt, tt))
    (λ _ _ _ _ (calls : nat), (Raise CancelledError, S calls))
    hello_world.GenerateStreamHandler
    (aiohttp.mkRequest (Return JNull))
    0%nat
  = (Raise CancelledError, 1%nat).
Proof.
  exact (proj2 (proj2 (proj2 (handlers_do_not_catch_a_cancellation
                  (λ _ : json, Return (tt, tt))
                  (λ _ _ _ _ (calls : nat), (Raise CancelledError, S calls))
                  hello_world.GenerateStreamHandler
                  (aiohttp.mkRequest (Return JNull)) JNull tt tt CancelledError
                  0%nat 1%nat eq_refl eq_refl eq_refl eq_refl)))).
Defined.

Lemma handlers_touch_the_backend_witness :
  (tgi.GenerateStreamHandler_handle_request
     (λ _ : json, Return (tt, tt))
     (λ _ _ _ _ (calls : nat), (Raise (Exception "Cannot connect to host"), S calls))
     tgi.GenerateStreamHandler (aiohttp.mkRequest (Return JNull)) 0%nat).2 = 0%nat
  ∨ ∃ data auth_data payload,
      aiohttp.request_json (aiohttp.mkRequest (Return JNull)) = Return data
      ∧ (λ _ : json, Return (tt, tt)) data = Return (auth_data, payload)
      ∧ (tgi.GenerateStreamHandler_handle_request
           (λ _ : json, Return (tt, tt))
           (λ _ _ _ _ (calls : nat), (Raise (Exception "Cannot connect to host"), S calls))
           tgi.GenerateStreamHandler (aiohttp.mkRequest (Return JNull)) 0%nat).2
        = 1%nat.
Proof.
  refine (handlers_touch_the_backend_only_through_handle_request
            (λ _ : json, Return (tt, tt))
            (λ _ _ _ _ (calls : nat), (Raise (Exception "Cannot connect to host"), S calls))
            tgi.GenerateStreamHandler (aiohttp.mkRequest (Return JNull)) 0%nat
            (tgi.GenerateStreamHandler_handle_request
               (λ _ : json, Return (tt, tt))
               (λ _ _ _ _ (calls : nat),
                  (Raise (Exception "Cannot connect to host"), S calls))) _).
  apply elem_of_cons. right. apply elem_of_cons. by left.
Defined.

(** ** The response transforms on every upstream answer *)

Lemma endpoint_handlers_transform (handler : aiohttp.EndpointHandler) :
  handler ∈ endpoint_handlers →
  (aiohttp.generate_response handler = aiohttp.json_generate_response
   ∧ aiohttp.endpoint handler ≠ "/generate_stream"%string)
  ∨ (aiohttp.generate_response handler = aiohttp.stream_generate_response
     ∧ aiohttp.endpoint handler = "/generate_stream"%string).
Proof.
  intros Hin. unfold endpoint_handlers in Hin.
  repeat (apply elem_of_cons in Hin as [->|Hin]);
    try (by apply elem_of_nil in Hin);
    try (left; split; [reflexivity|discriminate]);
    right; split; reflexivity.
Qed.

(** Whatever the upstream status, 200 included, a transform that returns hands
    the client a response of that same status. *)
Theorem response_transforms_preserve_the_status :
  ∀ (handler : aiohttp.EndpointHandler) (request : aiohttp.Request)
    (response : aiohttp.ClientResponse) (events : list aiohttp.stream_event)
    (answer : aiohttp.Response),
    handler ∈ endpoint_handlers →
    aiohttp.generate_response handler request response = (events, Return answer) →
    Response_status answer = aiohttp.status response.
Proof.
  intros handler request response events answer Hin Hrun.
  destruct (endpoint_handlers_transform handler Hin) as [[Ht _]|[Ht _]];
    rewrite Ht in Hrun.
  - unfold aiohttp.json_generate_response in Hrun.
    destruct (Z.eqb_spec (aiohttp.status response) 200) as [Hst|Hst].
    + destruct (aiohttp.response_json response); inversion Hrun; subst. by rewrite Hst.
    + by inversion Hrun; subst.
  - unfold aiohttp.stream_generate_response in Hrun.
    destruct (Z.eqb_spec (aiohttp.status response) 200) as [Hst|Hst].
    + destruct (aiohttp.content_raises response); inversion Hrun; subst.
      by rewrite Hst.
    + by inversion Hrun; subst.
Qed.

Lemma response_transforms_preserve_the_status_witness :
  Response_status (aiohttp.json_response (JStr "text") 200)
  = aiohttp.status (aiohttp.mkClientResponse 200 (Return (JStr "text")) [] None).
Proof.
  refine (response_transforms_preserve_the_status whisper.AsrHandler
            (aiohttp.mkRequest (Return JNull))
            (aiohttp.mkClientResponse 200 (Return (JStr "text")) [] None)
            [] (aiohttp.json_response (JStr "text") 200) _ eq_refl).
  unfold endpoint_handlers. apply elem_of_cons. by left.
Defined.

(** A transform raises in two cases only, both on status 200: a handler that
    is not a streaming one, when decoding the body as JSON raised that
    exception, with nothing written to the client; or a streaming handler,
    when the iteration over the upstream body raised it, after the response
    was prepared and every chunk received was written, and before
    [write_eof]. (The client connection is taken to accept the writes.) *)
Theorem response_transforms_raise_only_on_a_broken_200 :
  ∀ (handler : aiohttp.EndpointHandler) (request : aiohttp.Request)
    (response : aiohttp.ClientResponse) (events : list aiohttp.stream_event) (e : exn),
    handler ∈ endpoint_handlers →
    aiohttp.generate_response handler request response = (events, Raise e) →
    aiohttp.status response = 200
    ∧ (aiohttp.endpoint handler ≠ "/generate_stream"%string
       ∧ aiohttp.response_json response = Raise e
       ∧ events = []
       ∨ aiohttp.endpoint handler = "/generate_stream"%string
         ∧ aiohttp.content_raises response = Some e
         ∧ events = aiohttp.prepare "text/event-stream"
                      :: aiohttp.forward_chunks (aiohttp.content response)).
Proof.
  intros handler request response events e Hin Hrun.
  destruct (endpoint_handlers_transform handler Hin) as [[Ht Hep]|[Ht Hep]];
    rewrite Ht in Hrun.
  - unfold aiohttp.json_generate_response in Hrun.
    destruct (Z.eqb_spec (aiohttp.status response) 200) as [Hst|Hst]; [|done].
    destruct (aiohttp.response_json response) as [data|e'] eqn:Hj; [done|].
    inversion Hrun; subst. split; [done|]. by left.
  - unfold aiohttp.stream_generate_response in Hrun.
    destruct (Z.eqb_spec (aiohttp.status response) 200) as [Hst|Hst]; [|done].
    destruct (aiohttp.content_raises response) as [e'|] eqn:Hc; [|done].
    inversion Hrun; subst. split; [done|]. by right.
Qed.

Lemma response_transforms_raise_witness :
  let response :=
    aiohttp.mkClientResponse 200 (Raise (Exception "not JSON")) ["data: a" +:+ nl]
      (Some (Exception "ClientPayloadError")) in
  aiohttp.status response = 200
  ∧ (aiohttp.endpoint tgi.GenerateStreamHandler ≠ "/generate_stream"%string
     ∧ aiohttp.response_json response = Raise (Exception "ClientPayloadError")
     ∧ [aiohttp.prepare "text/event-stream";
        aiohttp.read ("data: a" +:+ nl); aiohttp.write ("data: a" +:+ nl)] = []
     ∨ aiohttp.endpoint tgi.GenerateStreamHandler = "/generate_stream"%string
       ∧ aiohttp.content_raises response = Some (Exception "ClientPayloadError")
       ∧ [aiohttp.prepare "text/event-stream";
          aiohttp.read ("data: a" +:+ nl); aiohttp.write ("data: a" +:+ nl)]
         = aiohttp.prepare "text/event-stream"
             :: aiohttp.forward_chunks (aiohttp.content response)).
Proof.
  refine (response_transforms_raise_only_on_a_broken_200 tgi.GenerateStreamHandler
            (aiohttp.mkRequest (Return JNull))
            (aiohttp.mkClientResponse 200 (Raise (Exception "not JSON")) ["data: a" +:+ nl]
               (Some (Exception "ClientPayloadError")))
            [aiohttp.prepare "text/event-stream";
             aiohttp.read ("data: a" +:+ nl); aiohttp.write ("data: a" +:+ nl)]
            (Exception "ClientPayloadError") _ eq_refl).
  unfold endpoint_handlers. do 3 (apply elem_of_cons; right). apply elem_of_cons. by left.
Defined.

Lemma forward_chunks_app (first rest : list string) :
  aiohttp.forward_chunks (first ++ rest)
  = aiohttp.forward_chunks first ++ aiohttp.forward_chunks rest.
Proof. induction first as [|c cs IH]; simpl; [done|]. by rewrite IH. Qed.

Lemma forward_chunks_length (chunks : list string) :
  length (aiohttp.forward_chunks chunks) = (2 * length chunks)%nat.
Proof. induction chunks as [|c cs IH]; simpl; [done|]. rewrite IH. lia. Qed.

(** Streaming is incremental: once the first n chunks of a 200 response have
    arrived, the handler has prepared the response and written exactly those
    n chunks, whatever chunks follow and however many. *)
Theorem stream_transform_is_incremental :
  ∀ (request : aiohttp.Request) (body : result json) (first rest : list string)
    (raises : option exn),
    let events :=
      (aiohttp.stream_generate_response request
         (aiohttp.mkClientResponse 200 body (first ++ rest) raises)).1 in
    take (S (2 * length first)) events
    = aiohttp.prepare "text/event-stream" :: aiohttp.forward_chunks first
    ∧ aiohttp.chunks_written (take (S (2 * length first)) events) = first
    ∧ aiohttp.chunks_read (take (S (2 * length first)) events) = first.
Proof.
  intros request body first rest raises events.
  assert (Htake : take (S (2 * length first)) events
                  = aiohttp.prepare "text/event-stream" :: aiohttp.forward_chunks first).
  { subst events. unfold aiohttp.stream_generate_response.
    cbn [aiohttp.status aiohttp.content aiohttp.content_raises].
    change (200 =? 200) with true. destruct raises as [e|]; cbn [fst take]; f_equal.
    - rewrite forward_chunks_app, <- forward_chunks_length.
      by rewrite take_app_length.
    - rewrite forward_chunks_app, <- app_assoc, <- forward_chunks_length.
      by rewrite take_app_length. }
  rewrite Htake. split; [done|]. split.
  - change (aiohttp.chunks_written (aiohttp.forward_chunks first) = first).
    apply chunks_written_forward.
  - change (aiohttp.chunks_read (aiohttp.forward_chunks first) = first).
    apply chunks_read_forward.
Qed.

(** ** [from_json_msg]: what is reported and what reaches the constructor *)

(** Every declared parameter is either reported as missing or handed to the
    constructor with the value the body gives it, never both and never with
    another value; a key that is not declared is in neither. When nothing is
    reported, the keyword arguments are exactly the declared parameters. *)
Theorem from_json_msg_splits_the_declared_parameters :
  ∀ (cls_parameters : list string) (json_msg : gmap string json) (k : string),
    let errors := ApiPayload.collect_errors cls_parameters json_msg in
    let kwargs := ApiPayload.declared_items cls_parameters json_msg in
    (k ∈ cls_parameters ↔ is_Some (errors !! k) ∨ is_Some (kwargs !! k))
    ∧ ¬ (is_Some (errors !! k) ∧ is_Some (kwargs !! k))
    ∧ (∀ v, kwargs !! k = Some v → json_msg !! k = Some v)
    ∧ (size errors = 0%nat → dom kwargs = list_to_set cls_parameters).
Proof.
  intros cls_parameters json_msg k errors kwargs. subst errors kwargs.
  unfold ApiPayload.declared_items.
  split; [|split; [|split]].
  - split.
    + intros Hin. destruct (json_msg !! k) as [v|] eqn:Hk.
      * right. exists v. by apply map_lookup_filter_Some.
      * left. rewrite collect_errors_lookup. rewrite decide_True by done. by eexists.
    + intros [[r Hr]|[v Hv]].
      * rewrite collect_errors_lookup in Hr. case_decide as H; [by destruct H|done].
      * by apply map_lookup_filter_Some in Hv as [_ Hin].
  - intros [[r Hr] [v Hv]].
    rewrite collect_errors_lookup in Hr. case_decide as H; [|done].
    destruct H as [_ Hnone]. apply map_lookup_filter_Some in Hv as [Hv _]. congruence.
  - intros v Hv. by apply map_lookup_filter_Some in Hv as [Hv _].
  - intros Hsz. apply set_eq. intros x.
    rewrite elem_of_dom, elem_of_list_to_set. split.
    + intros [v Hv]. by apply map_lookup_filter_Some in Hv as [_ Hin].
    + intros Hin. apply map_size_empty_iff in Hsz.
      pose proof (collect_errors_lookup cls_parameters json_msg x) as Hx.
      rewrite Hsz, lookup_empty in Hx.
      destruct (json_msg !! x) as [v|] eqn:Hv.
      * exists v. by apply map_lookup_filter_Some.
      * by rewrite decide_True in Hx.
Qed.

(** Validation looks at the keys of the body and never at its values: two
    bodies with the same keys get the same error dict and the same keyword
    names, so a null or wrongly typed value is never reported. *)
Theorem from_json_msg_validates_keys_only :
  ∀ (cls_parameters : list string) (body1 body2 : gmap string json),
    dom body1 = dom body2 →
    ApiPayload.collect_errors cls_parameters body1
    = ApiPayload.collect_errors cls_parameters body2
    ∧ dom (ApiPayload.declared_items cls_parameters body1)
      = dom (ApiPayload.declared_items cls_parameters body2).
Proof.
  intros cls_parameters body1 body2 Hdom.
  assert (Hnone : ∀ k, body1 !! k = None ↔ body2 !! k = None).
  { intros k. rewrite <- !not_elem_of_dom. by rewrite Hdom. }
  split.
  - apply map_eq. intros k. rewrite !collect_errors_lookup.
    destruct (decide (k ∈ cls_parameters ∧ body1 !! k = None)) as [[Hin H1]|Hn].
    + rewrite decide_True; [done|]. split; [done|]. by apply Hnone.
    + rewrite decide_False; [done|]. intros [Hin H2]. apply Hn. split; [done|].
      by apply Hnone.
  - apply set_eq. intros k. unfold ApiPayload.declared_items.
    rewrite !elem_of_dom. split; intros [v Hv];
      apply map_lookup_filter_Some in Hv as [Hv Hin].
    + destruct (body2 !! k) as [v2|] eqn:H2.
      * exists v2. by apply map_lookup_filter_Some.
      * apply Hnone in H2. congruence.
    + destruct (body1 !! k) as [v1|] eqn:H1.
      * exists v1. by apply map_lookup_filter_Some.
      * apply Hnone in H1. congruence.
Qed.

Lemma from_json_msg_validates_keys_only_witness :
  ApiPayload.collect_errors whisper.parameters
    (<["audio_file"%string := JStr "a.mp3"]> ∅)
  = ApiPayload.collect_errors whisper.parameters
      (<["audio_file"%string := JNull]> ∅).
Proof.
  refine (proj1 (from_json_msg_validates_keys_only whisper.parameters
                   (<["audio_file"%string := JStr "a.mp3"]> ∅)
                   (<["audio_file"%string := JNull]> ∅) _)).
  vm_compute. reflexivity.
Defined.

(** ** The Flask proxy's diagnostic handlers and [generate_stream] *)

(** [health_handler], [info_handler] and [metrics_handler], on every answer of
    the model server and on a [RequestException]: they return, with the
    upstream status (500 when the server is unreachable, as for an upstream
    500), and with a body exactly when that status is 200; [health_handler]
    then returns the empty string, the other two the upstream content. *)
Theorem diagnostic_handlers_report_the_upstream_status :
  ∀ (upstream : result tgi_backend.requests_Response),
    (∀ e, upstream = Raise e → ∃ msg, e = RequestException msg) →
    ∃ code body,
      tgi_backend.health_handler upstream
      = Return (code, if code =? 200 then Some ""%string else None)
      ∧ tgi_backend.info_handler upstream
        = Return (code, if code =? 200 then Some body else None)
      ∧ tgi_backend.metrics_handler upstream = tgi_backend.info_handler upstream
      ∧ code = match upstream with
               | Return response => tgi_backend.status_code response
               | Raise _ => 500
               end
      ∧ (∀ response, upstream = Return response → body = tgi_backend.content response).
Proof.
  intros upstream Hexn. destruct upstream as [response|e].
  - exists (tgi_backend.status_code response), (tgi_backend.content response).
    unfold tgi_backend.metrics_handler, tgi_backend.health_handler,
      tgi_backend.info_handler.
    destruct (Z.eqb_spec (tgi_backend.status_code response) 200) as [Hst|Hst].
    + rewrite Hst. do 4 (split; [done|]). intros r Hr. by inversion Hr.
    + do 4 (split; [done|]). intros r Hr. by inversion Hr.
  - destruct (Hexn e eq_refl) as [msg ->]. exists 500, ""%string.
    do 4 (split; [done|]). intros r Hr. discriminate Hr.
Qed.

Lemma diagnostic_handlers_witness :
  ∃ code body,
    tgi_backend.health_handler (Raise (RequestException "Connection refused"))
    = Return (code, if code =? 200 then Some ""%string else None)
    ∧ tgi_backend.info_handler (Raise (RequestException "Connection refused"))
      = Return (code, if code =? 200 then Some body else None)
    ∧ tgi_backend.metrics_handler (Raise (RequestException "Connection refused"))
      = tgi_backend.info_handler (Raise (RequestException "Connection refused"))
    ∧ code = 500
    ∧ (∀ response, Raise (RequestException "Connection refused") = Return response →
                   body = tgi_backend.content response).
Proof.
  refine (diagnostic_handlers_report_the_upstream_status
            (Raise (RequestException "Connection refused")) _).
  intros e He. inversion He. by eexists.
Defined.

(** An exception of the upstream call that is no [RequestException] is not
    caught: it leaves the three diagnostic handlers and the generator of
    [generate_stream] alike. *)
Theorem flask_proxy_swallows_request_exceptions_only :
  ∀ (e : exn) (inputs parameters : json),
    (∀ msg, e ≠ RequestException msg) →
    tgi_backend.health_handler (Raise e) = Raise e
    ∧ tgi_backend.info_handler (Raise e) = Raise e
    ∧ tgi_backend.metrics_handler (Raise e) = Raise e
    ∧ (tgi_backend.hf_tgi_wrapper inputs parameters (Raise e)).2 = Some e
    ∧ ∀ status body lines,
        (tgi_backend.hf_tgi_wrapper inputs parameters
           (Return (tgi_backend.mkResponse status body lines (Some e)))).2
        = if status =? 200 then Some e else None.
Proof.
  intros e inputs parameters Hne.
  split; [|split; [|split; [|split]]].
  - destruct e as [| |msg| | |]; try done; by destruct (Hne msg).
  - destruct e as [| |msg| | |]; try done; by destruct (Hne msg).
  - destruct e as [| |msg| | |]; try done; by destruct (Hne msg).
  - destruct e as [| |msg| | |]; try done; by destruct (Hne msg).
  - intros status body lines.
    unfold tgi_backend.hf_tgi_wrapper, tgi_backend.hf_tgi_try.
    cbn [tgi_backend.status_code tgi_backend.iter_raises].
    destruct (status =? 200); [|done].
    destruct e as [| |msg| | |]; try done; by destruct (Hne msg).
Qed.

Lemma flask_proxy_swallows_request_exceptions_only_witness :
  tgi_backend.health_handler (Raise (Exception "MemoryError"))
  = Raise (Exception "MemoryError").
Proof.
  refine (proj1 (flask_proxy_swallows_request_exceptions_only
                   (Exception "MemoryError") JNull JNull _)).
  intros msg. discriminate.
Defined.

(** [generate_stream] reads [inputs] and [parameters] and nothing else of the
    request: two requests that agree on these two keys, present or not, get
    the same response, events and exception. *)
Theorem generate_stream_reads_inputs_and_parameters_only :
  ∀ (request1 request2 : gmap string json)
    (upstream : result tgi_backend.requests_Response),
    request1 !! "inputs"%string = request2 !! "inputs"%string →
    request1 !! "parameters"%string = request2 !! "parameters"%string →
    tgi_backend.generate_stream request1 upstream
    = tgi_backend.generate_stream request2 upstream.
Proof.
  intros request1 request2 upstream Hi Hp. unfold tgi_backend.generate_stream.
  by rewrite Hi, Hp.
Qed.

Lemma generate_stream_reads_inputs_and_parameters_only_witness :
  tgi_backend.generate_stream
    (<["inputs"%string := JStr "hi"]>
       (<["parameters"%string := JObj ∅]> (<["stream"%string := JBool false]> ∅)))
    (Raise (RequestException "Connection refused"))
  = tgi_backend.generate_stream
      (<["inputs"%string := JStr "hi"]> (<["parameters"%string := JObj ∅]> ∅))
      (Raise (RequestException "Connection refused")).
Proof.
  refine (generate_stream_reads_inputs_and_parameters_only _ _ _ _ _).
  - vm_compute. reflexivity.
  - vm_compute. reflexivity.
Defined.

(** A request without [inputs] or without [parameters] makes [generate_stream]
    raise [KeyError] for the first of the two that is missing, before any
    sample is opened and before the model server is called. *)
Theorem generate_stream_raises_key_error_before_any_effect :
  ∀ (model_request : gmap string json)
    (upstream : result tgi_backend.requests_Response),
    model_request !! "inputs"%string = None
    ∨ model_request !! "parameters"%string = None →
    ∃ key,
      tgi_backend.generate_stream model_request upstream = (Raise (KeyError key), [], None)
      ∧ model_request !! key = None
      ∧ (key = "inputs"%string
         ∨ key = "parameters"%string ∧ is_Some (model_request !! "inputs"%string)).
Proof.
  intros model_request upstream Hmissing. unfold tgi_backend.generate_stream.
  destruct (model_request !! "inputs"%string) as [inputs|] eqn:Hi.
  - destruct Hmissing as [?|Hp]; [done|]. rewrite Hp.
    exists "parameters"%string. split; [done|]. split; [done|]. right. split; [done|].
    by eexists.
  - exists "inputs"%string. split; [done|]. split; [done|]. by left.
Qed.

Lemma generate_stream_raises_key_error_witness :
  ∃ key,
    tgi_backend.generate_stream (<["inputs"%string := JStr "hi"]> ∅)
      (Return (tgi_backend.mkResponse 200 "" [] None))
    = (Raise (KeyError key), [], None)
    ∧ (<["inputs"%string := JStr "hi"]> ∅ : gmap string json) !! key = None
    ∧ (key = "inputs"%string
       ∨ key = "parameters"%string
         ∧ is_Some ((<["inputs"%string := JStr "hi"]> ∅ : gmap string json)
                      !! "inputs"%string)).
Proof.
  refine (generate_stream_raises_key_error_before_any_effect
            (<["inputs"%string := JStr "hi"]> ∅)
            (Return (tgi_backend.mkResponse 200 "" [] None)) _).
  right. vm_compute. reflexivity.
Defined.

(** ** [hf_tgi_wrapper] on every outcome of the upstream call *)

Lemma yielded_lines_are_yields (lines : list string) :
  Forall is_yield_or_finish
    (flat_map (λ byte_payload, [tgi_backend.yield byte_payload; tgi_backend.yield nl]) lines).
Proof.
  induction lines as [|l ls IH]; [constructor|].
  change (Forall is_yield_or_finish
            (tgi_backend.yield l :: tgi_backend.yield nl
             :: flat_map (λ byte_payload,
                            [tgi_backend.yield byte_payload; tgi_backend.yield nl]) ls)).
  repeat constructor. exact IH.
Qed.

(** Whatever the model server does, the generator first opens the sample,
    then makes its one call, a POST of [{"inputs": .., "parameters": ..}] to
    [/generate_stream]; everything after is an item or the closing
    [finish_req], so no second sample is opened and no second call is made. *)
Theorem hf_tgi_wrapper_opens_one_sample_then_calls_once :
  ∀ (inputs parameters : json) (upstream : result tgi_backend.requests_Response),
    ∃ rest,
      (tgi_backend.hf_tgi_wrapper inputs parameters upstream).1
      = tgi_backend.start_req inputs parameters
          :: tgi_backend.post "http://127.0.0.1:5001/generate_stream"
               (<["inputs"%string := inputs]> (<["parameters"%string := parameters]> ∅))
          :: rest
      ∧ Forall is_yield_or_finish rest
      ∧ tgi_backend.samples_started
          (tgi_backend.hf_tgi_wrapper inputs parameters upstream).1 = 1%nat.
Proof.
  intros inputs parameters upstream.
  unfold tgi_backend.hf_tgi_wrapper, tgi_backend.hf_tgi_try.
  destruct upstream as [response|e].
  - destruct (tgi_backend.status_code response =? 200).
    + destruct (samples_of_yielded_lines (tgi_backend.iter_lines response)) as [Hs _].
      destruct (tgi_backend.iter_raises response) as [e|]; cbn [fst]; eexists;
        (split; [reflexivity|]); split.
      * apply yielded_lines_are_yields.
      * change (S (tgi_backend.samples_started
                     (flat_map (λ byte_payload,
                                  [tgi_backend.yield byte_payload; tgi_backend.yield nl])
                        (tgi_backend.iter_lines response))) = 1%nat).
        by rewrite Hs.
      * apply Forall_app. split; [apply yielded_lines_are_yields|].
        by repeat constructor.
      * change (S (tgi_backend.samples_started
                     (flat_map (λ byte_payload,
                                  [tgi_backend.yield byte_payload; tgi_backend.yield nl])
                        (tgi_backend.iter_lines response)
                      ++ [tgi_backend.finish_req inputs parameters])) = 1%nat).
        by rewrite samples_started_app, Hs.
    + eexists. split; [reflexivity|]. split; [by repeat constructor|done].
  - eexists. split; [reflexivity|]. split; [constructor|done].
Qed.

Lemma yielded_of_items (items : list string) (rest : list tgi_backend.event) :
  tgi_backend.yielded ((tgi_backend.yield <$> items) ++ rest)
  = items ++ tgi_backend.yielded rest.
Proof. induction items as [|i items IH]; [done|]. cbn. by rewrite <- IH. Qed.

Lemma samples_of_items (items : list string) :
  tgi_backend.samples_started (tgi_backend.yield <$> items) = 0%nat
  ∧ tgi_backend.samples_finished (tgi_backend.yield <$> items) = 0%nat.
Proof. induction items as [|i items IH]; [done|]. exact IH. Qed.

(** Closing at the [n]-th item: the items up to it have been yielded and
    nothing after them has run. *)
Lemma until_item_of_items (items : list string) (rest : list tgi_backend.event) :
  ∀ n : nat, (1 ≤ n ≤ length items)%nat →
    tgi_backend.until_item n ((tgi_backend.yield <$> items) ++ rest)
    = tgi_backend.yield <$> take n items.
Proof.
  induction items as [|i items IH]; intros n Hn; [cbn in Hn; lia|].
  destruct n as [|n]; [lia|]. cbn in Hn. cbn.
  destruct n as [|n]; [done|].
  f_equal. apply IH. lia.
Qed.

(** A consumer that reads to the end sees the generator run to its end. *)
Lemma hf_tgi_wrapper_consumed_to_the_end (inputs parameters : json)
    (upstream : result tgi_backend.requests_Response) (consumer : option nat) :
  tgi_backend.reads_to_the_end consumer
    (tgi_backend.hf_tgi_wrapper inputs parameters upstream).1 →
  tgi_backend.hf_tgi_wrapper_consumed inputs parameters upstream consumer
  = tgi_backend.hf_tgi_wrapper inputs parameters upstream.
Proof.
  unfold tgi_backend.hf_tgi_wrapper_consumed, tgi_backend.reads_to_the_end.
  destruct consumer as [n|]; [|done]. intros Hn.
  case_decide; [lia|done].
Qed.

(** A consumer that closes the generator at an item it has: the items up to
    that one were yielded, the sample was opened unless the generator never
    started, and it is not closed. *)
Lemma hf_tgi_wrapper_consumed_closed (inputs parameters : json)
    (upstream : result tgi_backend.requests_Response) (n : nat) :
  let whole := tgi_backend.hf_tgi_wrapper inputs parameters upstream in
  let run := tgi_backend.hf_tgi_wrapper_consumed inputs parameters upstream (Some n) in
  (n ≤ length (tgi_backend.yielded whole.1))%nat →
  run.2 = None
  ∧ run.1 `prefix_of` whole.1
  ∧ tgi_backend.yielded run.1 = take n (tgi_backend.yielded whole.1)
  ∧ tgi_backend.samples_started run.1 = (if n is O then 0 else 1)%nat
  ∧ tgi_backend.samples_finished run.1 = 0%nat.
Proof.
  intros whole run Hn. subst whole run.
  unfold tgi_backend.hf_tgi_wrapper_consumed.
  case_decide; [|lia]. cbn [fst snd]. split; [done|].
  destruct (hf_tgi_wrapper_events inputs parameters upstream) as (items & fin & Hrun & Hfin).
  rewrite Hrun in Hn |- *.
  assert (tgi_backend.yielded fin = []) as Hnone
    by (destruct Hfin as [(-> & _)|(-> & _)]; done).
  change (tgi_backend.yielded (?a :: ?b :: ?rest)) with (tgi_backend.yielded rest) in Hn |- *.
  rewrite yielded_of_items, Hnone, app_nil_r in Hn.
  rewrite yielded_of_items, Hnone, app_nil_r.
  destruct n as [|n].
  { cbn. split; [apply prefix_nil|done]. }
  change (tgi_backend.until_item (S n) (?a :: ?b :: ?rest))
    with (a :: b :: tgi_backend.until_item (S n) rest).
  rewrite until_item_of_items by lia.
  split; [|split; [|split]].
  - do 2 apply prefix_cons. rewrite <- (take_drop (S n) items) at 2.
    rewrite fmap_app, <- app_assoc. apply prefix_app_r. done.
  - change (tgi_backend.yielded (?a :: ?b :: ?rest)) with (tgi_backend.yielded rest).
    rewrite <- (app_nil_r (tgi_backend.yield <$> _)), yielded_of_items. cbn.
    by rewrite app_nil_r.
  - change (S (tgi_backend.samples_started (tgi_backend.yield <$> take (S n) items)) = 1%nat).
    by rewrite (proj1 (samples_of_items _)).
  - change (tgi_backend.samples_finished (tgi_backend.yield <$> take (S n) items) = 0%nat).
    apply samples_of_items.
Qed.

(** The sample is closed exactly when the generator runs to its end, that is
    when the upstream lets the [try] block complete and the consumer takes
    every item: then [finish_req] is called once, as the last thing the
    generator does, and no exception escapes. When the call or the iteration
    raises, whatever the exception, or when the consumer closes the generator
    at one of its items, [finish_req] is never called; in the latter case the
    items up to that one were yielded and [close()] lets nothing escape. *)
Theorem hf_tgi_wrapper_closes_the_sample_iff_it_runs_to_the_end :
  ∀ (inputs parameters : json) (upstream : result tgi_backend.requests_Response)
    (consumer : option nat),
    let whole := tgi_backend.hf_tgi_wrapper inputs parameters upstream in
    let run := tgi_backend.hf_tgi_wrapper_consumed inputs parameters upstream consumer in
    (try_block_completes upstream ∧ tgi_backend.reads_to_the_end consumer whole.1 →
       tgi_backend.samples_finished run.1 = 1%nat
       ∧ last run.1 = Some (tgi_backend.finish_req inputs parameters)
       ∧ run.2 = None)
    ∧ (¬ (try_block_completes upstream ∧ tgi_backend.reads_to_the_end consumer whole.1) →
         tgi_backend.samples_finished run.1 = 0%nat)
    ∧ (∀ n : nat, consumer = Some n → (n ≤ length (tgi_backend.yielded whole.1))%nat →
         run.2 = None
         ∧ run.1 `prefix_of` whole.1
         ∧ tgi_backend.yielded run.1 = take n (tgi_backend.yielded whole.1)
         ∧ tgi_backend.samples_started run.1 = (if n is O then 0 else 1)%nat
         ∧ tgi_backend.samples_finished run.1 = 0%nat).
Proof.
  intros inputs parameters upstream consumer whole run.
  assert (∀ n : nat, consumer = Some n → (n ≤ length (tgi_backend.yielded whole.1))%nat →
            run.2 = None
            ∧ run.1 `prefix_of` whole.1
            ∧ tgi_backend.yielded run.1 = take n (tgi_backend.yielded whole.1)
            ∧ tgi_backend.samples_started run.1 = (if n is O then 0 else 1)%nat
            ∧ tgi_backend.samples_finished run.1 = 0%nat) as Hclosed.
  { intros n -> Hn. by apply hf_tgi_wrapper_consumed_closed. }
  destruct (hf_tgi_wrapper_events inputs parameters upstream) as (items & fin & Hrun & Hfin).
  assert (tgi_backend.reads_to_the_end consumer whole.1 → run = whole) as Hend
    by apply hf_tgi_wrapper_consumed_to_the_end.
  split; [|split; [|exact Hclosed]].
  - intros [Hcompletes Hreads]. rewrite (Hend Hreads). subst whole.
    destruct Hfin as [(-> & _ & Hnone)|(_ & Hnot)]; [|done].
    rewrite Hrun. split; [|split; [|exact Hnone]].
    + change (tgi_backend.samples_finished
                ((tgi_backend.yield <$> items)
                 ++ [tgi_backend.finish_req inputs parameters]) = 1%nat).
      by rewrite samples_finished_app, (proj2 (samples_of_items _)).
    + rewrite !app_comm_cons. apply last_snoc.
  - intros Hnot.
    destruct consumer as [n|].
    + destruct (decide (n ≤ length (tgi_backend.yielded whole.1))%nat) as [Hn|Hn].
      * by destruct (Hclosed n eq_refl Hn) as (_ & _ & _ & _ & ?).
      * assert (tgi_backend.reads_to_the_end (Some n) whole.1) as Hreads
          by (cbn; lia).
        rewrite (Hend Hreads). subst whole.
        destruct Hfin as [(_ & Hcompletes & _)|(-> & _)]; [by destruct Hnot|].
        rewrite Hrun, app_nil_r.
        change (tgi_backend.samples_finished (tgi_backend.yield <$> items) = 0%nat).
        apply samples_of_items.
    + rewrite (Hend I). subst whole.
      destruct Hfin as [(_ & Hcompletes & _)|(-> & _)]; [by destruct Hnot|].
      rewrite Hrun, app_nil_r.
      change (tgi_backend.samples_finished (tgi_backend.yield <$> items) = 0%nat).
      apply samples_of_items.
Qed.

(** When the model server answers, the body is read to its end and the
    consumer takes every item, the sample is opened before the call and closed
    once, after the last item. *)
Theorem hf_tgi_wrapper_sample_closed_when_read_to_the_end
    (inputs parameters : json) (response : tgi_backend.requests_Response)
    (consumer : option nat) :
  tgi_backend.iter_raises response = None →
  tgi_backend.reads_to_the_end consumer
    (tgi_backend.hf_tgi_wrapper inputs parameters (Return response)).1 →
  ∃ items,
    (tgi_backend.hf_tgi_wrapper_consumed inputs parameters (Return response) consumer).1
    = [tgi_backend.start_req inputs parameters;
       tgi_backend.post "http://127.0.0.1:5001/generate_stream"
         (<["inputs"%string := inputs]> (<["parameters"%string := parameters]> ∅))]
        ++ items ++ [tgi_backend.finish_req inputs parameters]
    ∧ tgi_backend.samples_started items = 0%nat
    ∧ tgi_backend.samples_finished items = 0%nat
    ∧ tgi_backend.samples_started
        (tgi_backend.hf_tgi_wrapper_consumed inputs parameters (Return response) consumer).1
      = 1%nat
    ∧ tgi_backend.samples_finished
        (tgi_backend.hf_tgi_wrapper_consumed inputs parameters (Return response) consumer).1
      = 1%nat.
Proof.
  intros Hraises Hreads.
  rewrite (hf_tgi_wrapper_consumed_to_the_end _ _ _ _ Hreads).
  by apply hf_tgi_wrapper_run_to_the_end_closes_the_sample.
Qed.

Lemma hf_tgi_wrapper_sample_closed_witness :
  tgi_backend.samples_finished
    (tgi_backend.hf_tgi_wrapper_consumed (JStr "hi") (JObj ∅)
       (Return (tgi_backend.mkResponse 200 "data: a" ["data: a"%string] None))
       (Some 3%nat)).1
  = 1%nat.
Proof.
  assert (tgi_backend.reads_to_the_end (Some 3%nat)
            (tgi_backend.hf_tgi_wrapper (JStr "hi") (JObj ∅)
               (Return (tgi_backend.mkResponse 200 "data: a" ["data: a"%string] None))).1)
    as Hreads by (vm_compute; lia).
  destruct (hf_tgi_wrapper_sample_closed_when_read_to_the_end (JStr "hi") (JObj ∅)
              (tgi_backend.mkResponse 200 "data: a" ["data: a"%string] None)
              (Some 3%nat) eq_refl Hreads)
    as (items & _ & _ & _ & _ & Hfinished).
  exact Hfinished.
Defined.

(** A client that goes away after the first line: the line was yielded, the
    sample is open and [finish_req] has not been called. *)
Example hf_tgi_wrapper_closed_by_the_consumer :
  tgi_backend.hf_tgi_wrapper_consumed (JStr "hi") (JObj ∅)
    (Return (tgi_backend.mkResponse 200 "" ["data: a"%string; "data: b"%string] None))
    (Some 1%nat)
  = ([tgi_backend.start_req (JStr "hi") (JObj ∅);
      tgi_backend.post "http://127.0.0.1:5001/generate_stream"
        (<["inputs"%string := JStr "hi"]> (<["parameters"%string := JObj ∅]> ∅));
      tgi_backend.yield "data: a"], None).
Proof. vm_compute. reflexivity. Qed.

(** The client is sent the lines that were received, each followed by a
    newline item, also when the iteration breaks off afterwards; nothing is
    yielded for a status other than 200 or when the call raises. *)
Theorem hf_tgi_wrapper_yields_the_lines_received :
  ∀ (inputs parameters : json) (status : Z) (body : string) (lines : list string)
    (raises : option exn) (e : exn),
    tgi_backend.yielded
      (tgi_backend.hf_tgi_wrapper inputs parameters
         (Return (tgi_backend.mkResponse status body lines raises))).1
    = (if status =? 200 then flat_map (λ line, [line; nl]) lines else [])
    ∧ tgi_backend.yielded (tgi_backend.hf_tgi_wrapper inputs parameters (Raise e)).1 = [].
Proof.
  intros inputs parameters status body lines raises e. split; [|done].
  unfold tgi_backend.hf_tgi_wrapper, tgi_backend.hf_tgi_try.
  cbn [tgi_backend.status_code tgi_backend.iter_lines tgi_backend.iter_raises].
  destruct (status =? 200); [|by destruct raises].
  destruct raises as [e'|]; cbn [fst].
  - change (tgi_backend.yielded
              (flat_map (λ byte_payload,
                           [tgi_backend.yield byte_payload; tgi_backend.yield nl]) lines)
            = flat_map (λ line, [line; nl]) lines).
    apply yielded_lines.
  - change (tgi_backend.yielded
              (flat_map (λ byte_payload,
                           [tgi_backend.yield byte_payload; tgi_backend.yield nl]) lines
               ++ [tgi_backend.finish_req inputs parameters])
            = flat_map (λ line, [line; nl]) lines).
    unfold tgi_backend.yielded. rewrite omap_app. simpl. rewrite app_nil_r.
    apply yielded_lines.
Qed.
